(** * A shallow embedding of the document query layer (query.js, model.js)

    The development follows the two classes of the package:
    - [DbQuery], the chainable query builder of [src/query.js];
    - [DbModel], the entity wrapper of [src/model.js] together with its
      static query constructors.

    JavaScript objects that are mutated in place and handed around by
    reference (builders, entities) live in a store indexed by locations;
    a method takes the location of its receiver and transforms the store.
    Exceptions (and rejected promises of [async] methods, which an awaiting
    caller observes as exceptions) are the [Throw] outcome of a small
    state-and-exception monad. *)

From Stdlib Require Import ZArith String Ascii List DecimalString.
From stdpp Require Import base option list gmap strings.

Local Open Scope string_scope.

(** ** JavaScript values *)

Module Js.

(** Numbers: the integer-valued numbers (exact below 2^53) and the
    not-a-number value.  Fractions and infinities play no role in the
    properties below. *)
Inductive number :=
| Num (z : Z)
| NaN.

(** The two classes of data objects that a document holds. *)
Inductive objclass :=
| Plain
| Array.

(** A value is a primitive or an object.  An object is described by its
    class and its own enumerable properties in insertion order; an array
    [[a, b]] has the properties ["0"] and ["1"].  Inherited and
    non-enumerable members (prototype methods, the [length] of an array)
    are not properties in this sense. *)
#[warnings="-register-all"]
Inductive value :=
| VUndefined
| VNull
| VBool (b : bool)
| VNum (n : number)
| VStr (s : string)
| VObj (c : objclass) (props : list (string * value)).

(** What a run ends with when it does not return: an exception of the
    language, the rejection of a request by the plug, or [Beyond], which
    is no exception of the program.  [Beyond] marks a run that has reached
    an object of the runtime itself (a prototype, a built-in function) or
    has resized an array, where this development does not follow it;
    nothing is stated about such a run. *)
Inductive exn :=
| Error (msg : string)
| TypeError (msg : string)
| ReferenceError (msg : string)
| Rejected (reason : value)
| RangeError (msg : string)
| Beyond (what : string).

Inductive outcome (A : Type) :=
| Return (a : A)
| Throw (e : exn).
Arguments Return {A} a.
Arguments Throw {A} e.

Definition obj (props : list (string * value)) : value := VObj Plain props.

(** First binding of a key in a property list. *)
Fixpoint assoc {A : Type} (k : string) (l : list (string * A)) : option A :=
  match l with
  | [] => None
  | (k', a) :: r => if String.eqb k k' then Some a else assoc k r
  end.

(** [obj[k] = a]: overwrite the binding of [k], or add it at the end. *)
Fixpoint update {A : Type} (k : string) (a : A) (l : list (string * A))
  : list (string * A) :=
  match l with
  | [] => [(k, a)]
  | (k', a') :: r =>
      if String.eqb k k' then (k, a) :: r else (k', a') :: update k a r
  end.

(** Canonical array indices: ["0"], ["1"], ["2"], ... *)
Definition index_key (i : nat) : string :=
  NilZero.string_of_uint (Nat.to_uint i).

Definition parse_index (k : string) : option nat :=
  match NilZero.uint_of_string k with
  | Some u =>
      let i := Nat.of_uint u in
      if String.eqb (index_key i) k then Some i else None
  | None => None
  end.

(** The [length] of an array: one more than its largest index. *)
Definition array_length {A : Type} (props : list (string * A)) : nat :=
  fold_right
    (fun kv n => match parse_index (fst kv) with
                 | Some i => Nat.max (S i) n
                 | None => n
                 end) 0%nat props.

(** The characters of a string as indexed properties. *)
Fixpoint chars_from (i : nat) (s : string) : list (string * value) :=
  match s with
  | EmptyString => []
  | String c rest =>
      (index_key i, VStr (String c EmptyString)) :: chars_from (S i) rest
  end.

(** The own enumerable properties of a value. *)
Definition own_properties (v : value) : list (string * value) :=
  match v with
  | VObj _ props => props
  | VStr s => chars_from 0 s
  | _ => []
  end.

(** [Object.assign ({}, source)]: the own enumerable properties of the
    source are written on a fresh object.  Writing ["__proto__"] on an
    object that has no such property of its own goes to the accessor that
    it inherits and makes no property. *)
Definition Object_assign_empty (source : value) : value :=
  VObj Plain
    (List.filter (fun kv => negb (String.eqb "__proto__" (fst kv)))
       (own_properties source)).

(** [v.length === 0]; [null] has no members. *)
Definition length_is_zero (v : value) : outcome bool :=
  match v with
  | VUndefined => Throw (TypeError "Cannot read properties of undefined")
  | VNull => Throw (TypeError "Cannot read properties of null")
  | VStr s => Return (Nat.eqb (String.length s) 0)
  | VObj Array props => Return (Nat.eqb (array_length props) 0)
  | VObj Plain props =>
      Return match assoc "length" props with
             | Some (VNum (Num 0)) => true
             | _ => false
             end
  | _ => Return false
  end.

(** [typeof v === "string"], [v instanceof Object], [v == null]. *)
Definition is_string (v : value) : bool :=
  match v with VStr _ => true | _ => false end.

Definition instanceof_Object (v : value) : bool :=
  match v with VObj _ _ => true | _ => false end.

Definition eq_null (v : value) : bool :=
  match v with VUndefined | VNull => true | _ => false end.

(** A parameter with a default: the default applies when the argument is
    omitted or [undefined]. *)
Definition default_arg (v dflt : value) : value :=
  match v with VUndefined => dflt | _ => v end.

Definition decimal (z : Z) : string := NilZero.string_of_int (Z.to_int z).

(** The integers up to 2^53 in magnitude are numbers, and the sums and
    differences that stay in this range are exact. *)
Definition safe (z : Z) : bool := (Z.abs z <=? 2 ^ 53)%Z.

(** Beyond that range a number is printed with the fewest digits that
    still denote it: [shortest x] is the decimal with the fewest
    significant digits that rounds to the number [x], the nearest one if
    there are several.  Four times the bounds of the rounding interval
    are integers. *)
Definition rounds_to (x v : Z) : bool :=
  let ulp := (2 ^ (Z.log2 x - 52))%Z in
  let m := (x / ulp)%Z in
  let lo := (4 * x - (if (m =? 2 ^ 52)%Z then ulp else 2 * ulp))%Z in
  let hi := (4 * x + 2 * ulp)%Z in
  if Z.even m
  then ((lo <=? 4 * v) && (4 * v <=? hi))%Z
  else ((lo <? 4 * v) && (4 * v <? hi))%Z.

Definition with_digits (x n k : Z) : option Z :=
  let scale := (10 ^ (n - k))%Z in
  let lo := (x / scale * scale)%Z in
  let hi := (lo + scale)%Z in
  match rounds_to x lo, rounds_to x hi with
  | true, true =>
      if (x - lo <? hi - x)%Z then Some lo
      else if (hi - x <? x - lo)%Z then Some hi
      else if Z.even (x / scale) then Some lo else Some hi
  | true, false => Some lo
  | false, true => Some hi
  | false, false => None
  end.

Fixpoint shortest_from (fuel : nat) (x n k : Z) : Z :=
  match fuel with
  | O => x
  | S fuel' =>
      match with_digits x n k with
      | Some v => v
      | None => shortest_from fuel' x n (k + 1)
      end
  end.

Definition shortest (x : Z) : Z :=
  shortest_from 17 x (Z.of_nat (String.length (decimal x))) 1.

Fixpoint drop_zeros (rev_digits : string) : string :=
  match rev_digits with
  | String "0" rest => drop_zeros rest
  | _ => rev_digits
  end.

Fixpoint reverse (s : string) (acc : string) : string :=
  match s with
  | EmptyString => acc
  | String c rest => reverse rest (String c acc)
  end.

(** A positive integer of 22 digits or more is printed with an
    exponent. *)
Definition positive_to_string (x : Z) : string :=
  if safe x then decimal x
  else
    let digits := decimal (shortest x) in
    let n := String.length digits in
    if Nat.leb n 21 then digits
    else
      match reverse (drop_zeros (reverse digits "")) "" with
      | EmptyString => digits
      | String d EmptyString =>
          String d "" ++ "e+" ++ decimal (Z.of_nat (n - 1))
      | String d rest =>
          String d "" ++ "." ++ rest ++ "e+" ++ decimal (Z.of_nat (n - 1))
      end.

Definition number_to_string (n : number) : string :=
  match n with
  | NaN => "NaN"
  | Num z =>
      if (z <? 0)%Z then "-" ++ positive_to_string (- z)
      else positive_to_string z
  end.

(** The string form of a primitive value. *)
Definition primitive_to_string (v : value) : string :=
  match v with
  | VUndefined => "undefined"
  | VNull => "null"
  | VBool true => "true"
  | VBool false => "false"
  | VNum n => number_to_string n
  | VStr s => s
  | VObj _ _ => ""
  end.

(** The elements of an array joined with commas, each printed on its
    turn. *)
Fixpoint join_printed (printed : list (string * outcome string))
  (indices : list nat) : outcome string :=
  match indices with
  | [] => Return ""
  | i :: rest =>
      match default (Return "") (assoc (index_key i) printed) with
      | Throw e => Throw e
      | Return s =>
          match rest with
          | [] => Return s
          | _ =>
              match join_printed printed rest with
              | Return t => Return (s ++ "," ++ t)
              | Throw e => Throw e
              end
          end
      end
  end.

(** The abstract operation ToString.  An object is printed by the
    [toString] it inherits, which for an array joins the elements with
    commas, holes, [undefined] and [null] printing as the empty string,
    unless the array has a property [join] of its own.  A value of this
    development is never a function: an object with a property [toString]
    of its own has no way to be printed, since the [valueOf] that it
    inherits gives the object back. *)
Fixpoint ToString (v : value) : outcome string :=
  match v with
  | VObj c props =>
      match assoc "toString" props with
      | Some _ => Throw (TypeError "Cannot convert object to primitive value")
      | None =>
          match c with
          | Plain => Return "[object Object]"
          | Array =>
              match assoc "join" props with
              | Some _ => Return "[object Array]"
              | None =>
                  let printed :=
                    (fix each (ps : list (string * value))
                       : list (string * outcome string) :=
                       match ps with
                       | [] => []
                       | (k, e) :: r =>
                           (k, match e with
                               | VUndefined | VNull => Return ""
                               | _ => ToString e
                               end) :: each r
                       end) props in
                  join_printed printed (seq 0 (array_length props))
              end
          end
      end
  | _ => Return (primitive_to_string v)
  end.

(** The method call [v.toString ()]: there is no such member on [null]
    and [undefined], and a property [toString] of the object's own is no
    function. *)
Definition toString (v : value) : outcome string :=
  match v with
  | VUndefined => Throw (TypeError "Cannot read properties of undefined")
  | VNull => Throw (TypeError "Cannot read properties of null")
  | VObj _ props =>
      match assoc "toString" props with
      | Some _ => Throw (TypeError "toString is not a function")
      | None => ToString v
      end
  | _ => ToString v
  end.

(** The primitive value of an operand: an object gives its string form. *)
Definition ToPrimitive (v : value) : outcome value :=
  match v with
  | VObj _ _ =>
      match ToString v with
      | Return s => Return (VStr s)
      | Throw e => Throw e
      end
  | _ => Return v
  end.

Definition num_add (a b : number) : number :=
  match a, b with
  | Num x, Num y => Num (x + y)
  | _, _ => NaN
  end.

Definition num_sub (a b : number) : number :=
  match a, b with
  | Num x, Num y => Num (x - y)
  | _, _ => NaN
  end.

Section Arithmetic.

(** The numeric value of a string literal (the StringNumericLiteral
    grammar of the language) is left open. *)
Variable StringToNumber : string -> number.

(** The number that a primitive value stands for. *)
Definition primitive_to_number (v : value) : number :=
  match v with
  | VUndefined => NaN
  | VNull => Num 0
  | VBool true => Num 1
  | VBool false => Num 0
  | VNum n => n
  | VStr s => StringToNumber s
  | VObj _ _ => NaN
  end.

Definition ToNumber (v : value) : outcome number :=
  match ToPrimitive v with
  | Return p => Return (primitive_to_number p)
  | Throw e => Throw e
  end.

(** [a - b] *)
Definition sub (a b : value) : outcome value :=
  match ToNumber a with
  | Throw e => Throw e
  | Return x =>
      match ToNumber b with
      | Throw e => Throw e
      | Return y => Return (VNum (num_sub x y))
      end
  end.

(** [a + b]: concatenation as soon as the primitive of one operand is a
    string, addition otherwise. *)
Definition add (a b : value) : outcome value :=
  match ToPrimitive a with
  | Throw e => Throw e
  | Return pa =>
      match ToPrimitive b with
      | Throw e => Throw e
      | Return pb =>
          match pa, pb with
          | VStr _, _ | _, VStr _ =>
              Return (VStr (primitive_to_string pa ++ primitive_to_string pb))
          | _, _ =>
              Return (VNum (num_add (primitive_to_number pa)
                                    (primitive_to_number pb)))
          end
      end
  end.

End Arithmetic.

(** The elements of an array in index order, as [for (... of array)]
    visits them; a hole reads as [undefined]. *)
Definition elements (props : list (string * value)) : list value :=
  map (fun i => default VUndefined (assoc (index_key i) props))
      (seq 0 (array_length props)).

(** The members of a String object that cannot be written: its characters
    and its [length]. *)
Definition string_member (s : string) (k : string) : bool :=
  match parse_index k with
  | Some i => Nat.ltb i (String.length s)
  | None => String.eqb k "length"
  end.

(** [target[k] = v] on an object with the properties [props].  A property
    of the object's own is overwritten and a new name becomes a property;
    ["__proto__"], when it is no property of the object's own, goes to the
    accessor that the object inherits, which ignores a primitive and
    replaces the prototype otherwise; the [length] of an array resizes
    it or is refused. *)
Definition assign_property (c : objclass) (props : list (string * value))
  (k : string) (v : value) : outcome (list (string * value)) :=
  match assoc k props with
  | Some _ => Return (update k v props)
  | None =>
      if String.eqb k "__proto__"
      then match v with
           | VNull | VObj _ _ => Throw (Beyond "prototype replaced")
           | _ => Return props
           end
      else match c with
           | Array =>
               if String.eqb k "length"
               then Throw (Beyond "array resized")
               else Return (update k v props)
           | Plain => Return (update k v props)
           end
  end.

Fixpoint assign_properties (c : objclass) (props : list (string * value))
  (source : list (string * value)) : outcome (list (string * value)) :=
  match source with
  | [] => Return props
  | (k, v) :: rest =>
      match assign_property c props k v with
      | Return props' => assign_properties c props' rest
      | Throw e => Throw e
      end
  end.

(** [Object.assign (target, source)], as the value of [target] afterwards:
    the own enumerable properties of the source are written on the target
    in order.  [null] and [undefined] are no target; a number or a boolean
    is wrapped for the call and stays what it is; so does a string, unless
    a property to write is one of its own read-only members. *)
Definition Object_assign (target source : value) : outcome value :=
  match target with
  | VUndefined | VNull =>
      Throw (TypeError "Cannot convert undefined or null to object")
  | VObj c props =>
      match assign_properties c props (own_properties source) with
      | Return props' => Return (VObj c props')
      | Throw e => Throw e
      end
  | VStr s =>
      if existsb (fun kv => string_member s (fst kv)) (own_properties source)
      then Throw (TypeError "Cannot assign to read only property")
      else Return target
  | _ => Return target
  end.

End Js.

(** ** The dot-path resolver *)

Module DotProp.
Import Js.

(** The accessors [DotProp.get] and [DotProp.set] that model.js imports
    come from the dot-prop package, which is not part of the sources.
    They are modelled here on data trees: [set] is given as the root
    object it leaves behind. *)

Definition isObj (v : value) : bool := instanceof_Object v.

(** [path.split (".")] *)
Fixpoint split (path : string) : list string :=
  match path with
  | EmptyString => [EmptyString]
  | String c rest =>
      if Ascii.eqb c "."
      then EmptyString :: split rest
      else match split rest with
           | [] => [String c EmptyString]
           | p :: ps => String c p :: ps
           end
  end.

(** [p[p.length - 1] === "\\"] and [p.slice (0, -1)]; the backslash is
    character 92. *)
Fixpoint ends_with_backslash (p : string) : bool :=
  match p with
  | EmptyString => false
  | String c EmptyString => Ascii.eqb c (ascii_of_nat 92)
  | String _ rest => ends_with_backslash rest
  end.

Fixpoint slice_init (p : string) : string :=
  match p with
  | EmptyString => EmptyString
  | String _ EmptyString => EmptyString
  | String c rest => String c (slice_init rest)
  end.

(** A part that ends with a backslash swallows the dot and the part that
    follows it. *)
Fixpoint join_escaped (p : string) (rest : list string) : list string :=
  match rest with
  | [] => [p]
  | next :: rest' =>
      if ends_with_backslash p
      then join_escaped (slice_init p ++ "." ++ next) rest'
      else p :: join_escaped next rest'
  end.

(** Modelled from the spec: the segments of a dot path, which dot-prop
    computes and the sources do not contain.  A path is cut at its dots,
    except at a dot that a backslash escapes. *)
Definition getPathSegments (path : string) : list string :=
  match split path with
  | [] => []
  | p :: rest => join_escaped p rest
  end.

(** The own enumerable property [seg] of a value, if it has one: a
    property of an object, a character of a string. *)
Definition own_property (v : value) (seg : string) : option value :=
  match v with
  | VObj _ props => assoc seg props
  | VStr s =>
      match parse_index seg with
      | Some i =>
          match String.get i s with
          | Some c => Some (VStr (String c EmptyString))
          | None => None
          end
      | None => None
      end
  | _ => None
  end.

Fixpoint get_segments (o : value) (segs : list string) : value :=
  match segs with
  | [] => o
  | seg :: rest =>
      match own_property o seg with
      | None => VUndefined
      | Some child =>
          if eq_null child
          then match rest with [] => child | _ => VUndefined end
          else get_segments child rest
      end
  end.

(** Modelled from the spec: [DotProp.get], which the sources do not
    contain: it "returns the nested value at path or undefined-equivalent
    if absent".  As in the package, a path that is no string and a root
    that is no object give the root back, and [null] or [undefined] is a
    value only at the end of a path. *)
Definition get (o : value) (path : value) : value :=
  match path with
  | VStr p => if isObj o then get_segments o (getPathSegments p) else o
  | _ => o
  end.

(** The names that a data object finds on its prototype chain without
    having them as properties of its own.  What they name are functions,
    and for ["__proto__"] the prototype itself: objects of the runtime. *)
Definition Object_prototype_members : list string :=
  ["__defineGetter__"; "__defineSetter__"; "__lookupGetter__";
   "__lookupSetter__"; "__proto__"; "constructor"; "hasOwnProperty";
   "isPrototypeOf"; "propertyIsEnumerable"; "toLocaleString"; "toString";
   "valueOf"].

Definition Array_prototype_members : list string :=
  ["at"; "concat"; "copyWithin"; "entries"; "every"; "fill"; "filter";
   "find"; "findIndex"; "findLast"; "findLastIndex"; "flat"; "flatMap";
   "forEach"; "includes"; "indexOf"; "join"; "keys"; "lastIndexOf"; "map";
   "pop"; "push"; "reduce"; "reduceRight"; "reverse"; "shift"; "slice";
   "some"; "sort"; "splice"; "toReversed"; "toSorted"; "toSpliced";
   "unshift"; "values"; "with"].

Definition inherits (c : objclass) (seg : string) : bool :=
  existsb (String.eqb seg)
    (Object_prototype_members
     ++ match c with Array => Array_prototype_members | Plain => [] end).

(** The last step of [set], [if (!isObj (o[seg])) o[seg] = {}] and then
    [o[seg] = v], on an object with the properties [props].  The [length]
    of an array is a number, and an array refuses [{}] for its length. *)
Definition set_last (c : objclass) (props : list (string * value))
  (seg : string) (v : value) : outcome (list (string * value)) :=
  match assoc seg props with
  | Some _ => Return (update seg v props)
  | None =>
      match c with
      | Array =>
          if String.eqb seg "length"
          then Throw (RangeError "Invalid array length")
          else assign_property c props seg v
      | Plain => assign_property c props seg v
      end
  end.

(** A step on the way, [if (!isObj (o[seg])) o[seg] = {}] and then
    [o = o[seg]]: an object found at the property is entered, anything
    else there and a name that is not there give way to a fresh [{}].  An
    inherited member is entered as well, and the path then leaves the
    data. *)
Fixpoint set_segments (o : value) (segs : list string) (v : value)
  {struct segs} : outcome value :=
  match segs with
  | [] => Return o
  | seg :: rest =>
      match o with
      | VObj c props =>
          match rest with
          | [] =>
              match set_last c props seg v with
              | Return props' => Return (VObj c props')
              | Throw e => Throw e
              end
          | _ =>
              match assoc seg props with
              | Some child =>
                  match set_segments (if isObj child then child else obj [])
                                     rest v with
                  | Return child' => Return (VObj c (update seg child' props))
                  | Throw e => Throw e
                  end
              | None =>
                  if match c with
                     | Array => String.eqb seg "length"
                     | Plain => false
                     end
                  then Throw (RangeError "Invalid array length")
                  else if inherits c seg
                  then Throw (Beyond "the path enters an inherited member")
                  else
                    match set_segments (obj []) rest v with
                    | Return child' =>
                        Return (VObj c (update seg child' props))
                    | Throw e => Throw e
                    end
              end
          end
      | _ => Return o
      end
  end.

(** Modelled from the spec: [DotProp.set], which the sources do not
    contain: it writes the value at the path and creates the mappings on
    the way, replacing whatever on the way is no object.  The result is
    the root object after [DotProp.set (o, path, v)], or the exception
    that the call raises, the root then being what it was. *)
Definition set (o : value) (path : value) (v : value) : outcome value :=
  match path with
  | VStr p =>
      if isObj o then set_segments o (getPathSegments p) v else Return o
  | _ => Return o
  end.

(** [delete o[seg]], in strict code, on an object with the properties
    [props]: a property of the object's own goes, a name that is none
    stays without effect, and the [length] of an array cannot be
    deleted. *)
Definition delete_last (c : objclass) (props : list (string * value))
  (seg : string) : outcome (list (string * value)) :=
  match assoc seg props with
  | Some _ =>
      Return (List.filter (fun kv => negb (String.eqb seg (fst kv))) props)
  | None =>
      match c with
      | Array =>
          if String.eqb seg "length"
          then Throw (TypeError "Cannot delete property 'length'")
          else Return props
      | Plain => Return props
      end
  end.

Fixpoint delete_segments (o : value) (segs : list string) {struct segs}
  : outcome value :=
  match segs with
  | [] => Return o
  | seg :: rest =>
      match o with
      | VObj c props =>
          match rest with
          | [] =>
              match delete_last c props seg with
              | Return props' => Return (VObj c props')
              | Throw e => Throw e
              end
          | _ =>
              match assoc seg props with
              | Some child =>
                  if isObj child
                  then
                    match delete_segments child rest with
                    | Return child' =>
                        Return (VObj c (update seg child' props))
                    | Throw e => Throw e
                    end
                  else Return o
              | None =>
                  if match c with
                     | Array => String.eqb seg "length"
                     | Plain => false
                     end
                  then Return o
                  else if inherits c seg
                  then Throw (Beyond "the path enters an inherited member")
                  else Return o
              end
          end
      | _ => Return o
      end
  end.

(** Modelled from the spec: [DotProp.delete], which the sources do not
    contain: it "deletes one field", the last segment of the path, when
    the path leads through objects up to it, and does nothing otherwise.
    The result is the root object after [DotProp.delete (o, path)], or
    the exception that the call raises, the root then being what it
    was. *)
Definition delete (o : value) (path : value) : outcome value :=
  match path with
  | VStr p =>
      if isObj o then delete_segments o (getPathSegments p) else Return o
  | _ => Return o
  end.

(** [for (const key of keys) DotProp.delete (data, key)]: the data after
    the loop, and the exception that ended it early, if any. *)
Fixpoint delete_each (keys : list value) (data : value)
  : value * option exn :=
  match keys with
  | [] => (data, None)
  | k :: ks =>
      match delete data k with
      | Return data' => delete_each ks data'
      | Throw e => (data, Some e)
      end
  end.

End DotProp.

(** ** Objects, the store and the monad of method bodies *)

Module Runtime.
Import Js.

Definition loc := nat.

(** A handle on a Db API object, the binding of an entity type to a plug. *)
Definition DbRef := string.

(** An entity type: a class extending DbModel.  Registration attaches the
    Db API as its static [__db]; before that the member is undefined. *)
Record ModelClass := mkClass {
  class_name : string;
  __db : option DbRef
}.

(** The query parts pushed on [pts], one constructor per [type] tag with
    the fields of the object literal. *)
Inductive Operation :=
| OpLimit (limitAmount : value)
| OpSkip (skipAmount : value)
| OpSort (sortKey : value) (desc : bool)
| OpFilter (filter : value)
| OpWhereEquals (prop : value) (val : value)
| OpGt (min : value) (key : value)
| OpLt (max : value) (key : value)
| OpGte (min : value) (key : value)
| OpLte (max : value) (key : value).

Definition type (op : Operation) : string :=
  match op with
  | OpLimit _ => "limit"
  | OpSkip _ => "skip"
  | OpSort _ _ => "sort"
  | OpFilter _ => "filter"
  | OpWhereEquals _ _ => "whereEquals"
  | OpGt _ _ => "gt"
  | OpLt _ _ => "lt"
  | OpGte _ _ => "gte"
  | OpLte _ _ => "lte"
  end.

(** The fields of a DbQuery instance. *)
Record builder := mkBuilder {
  _Model : ModelClass;
  _db : option DbRef;
  pts : list Operation
}.

(** The fields of a DbModel instance; [constructor] is its class. *)
Record entity := mkEntity {
  constructor : ModelClass;
  __data : value;
  __id : value
}.

Inductive object :=
| Builder (q : builder)
| Entity (m : entity).

(** What a method hands back: a reference to an object of the store
    ([return this]) or a plain value. *)
Inductive result :=
| Ref (l : loc)
| Val (v : value).

(** The requests that the two classes send to the Db API. *)
Inductive DbCall :=
| findModels (Model : ModelClass) (query : loc)
| findModel (Model : ModelClass) (query : loc)
| countModels (Model : ModelClass) (query : loc)
| removeModels (Model : ModelClass) (query : loc)
| findById (Model : ModelClass) (id : value)
| removeById (Model : ModelClass) (id : value).

(** The state of a run: the store of objects, the state of the backend
    (of some type [B]) and the log of the requests sent so far. *)
Record state (B : Type) := mkState {
  heap : gmap loc object;
  backend : B;
  calls : list (DbRef * DbCall)
}.
Arguments mkState {B} heap backend calls.
Arguments heap {B} s.
Arguments backend {B} s.
Arguments calls {B} s.

(** The Db API with the plug behind it is outside the sources: it answers
    a request from the store it can reach through the references it is
    handed and from the backend, and leaves both in a new state. *)
Definition Plug (B : Type) : Type :=
  DbRef -> DbCall -> gmap loc object -> B ->
  outcome value * gmap loc object * B.

Definition M (B A : Type) : Type := state B -> outcome A * state B.

Definition ret {B A : Type} (a : A) : M B A := fun s => (Return a, s).

Definition throw {B A : Type} (e : exn) : M B A := fun s => (Throw e, s).

Definition bind {B A A' : Type} (m : M B A) (k : A -> M B A') : M B A' :=
  fun s =>
    match m s with
    | (Return a, s') => k a s'
    | (Throw e, s') => (Throw e, s')
    end.

Definition lift {B A : Type} (o : outcome A) : M B A := fun s => (o, s).

Declare Scope js_scope.
Delimit Scope js_scope with js.
Notation "x <- m ;; k" := (bind m (fun x => k))
  (at level 100, m at next level, right associativity) : js_scope.
Notation "m ;; k" := (bind m (fun _ => k))
  (at level 100, right associativity) : js_scope.

Local Open Scope js_scope.

(** [new C (...)]: the object is stored at a location not in use. *)
Definition alloc {B : Type} (o : object) : M B loc :=
  fun s =>
    let l := fresh (dom (heap s)) in
    (Return l, mkState (<[l := o]> (heap s)) (backend s) (calls s)).

Definition write {B : Type} (l : loc) (o : object) : M B unit :=
  fun s => (Return tt, mkState (<[l := o]> (heap s)) (backend s) (calls s)).

(** A receiver that is no builder has no [pts], one that is no entity no
    [__data]: reading a member of that [undefined] is a TypeError. *)
Definition this_builder {B : Type} (this : loc) : M B builder :=
  fun s =>
    match heap s !! this with
    | Some (Builder q) => (Return q, s)
    | _ => (Throw (TypeError "Cannot read properties of undefined"), s)
    end.

Definition this_entity {B : Type} (this : loc) : M B entity :=
  fun s =>
    match heap s !! this with
    | Some (Entity m) => (Return m, s)
    | _ => (Throw (TypeError "Cannot read properties of undefined"), s)
    end.

(** An identifier in a method body denotes the parameter of that name.
    Neither source file binds any other variable a method could mean, and
    the global object has no binding for the names used below, so any
    other identifier is a ReferenceError. *)
Definition resolve {B : Type} (params : list (string * value)) (x : string)
  : M B value :=
  match assoc x params with
  | Some v => ret v
  | None => throw (ReferenceError (x ++ " is not defined"))
  end.

(** [await db.request (...)]: the request is logged and answered by the
    plug; a call on a Db API that is undefined is a TypeError. *)
Definition db_call {B : Type} (plug : Plug B) (db : option DbRef) (c : DbCall)
  : M B value :=
  match db with
  | None => throw (TypeError "Cannot read properties of undefined")
  | Some d =>
      fun s =>
        match plug d c (heap s) (backend s) with
        | (r, h, b) => (r, mkState h b (calls s ++ [(d, c)]))
        end
  end.

(** The [i]-th argument of a call; a missing argument is [undefined]. *)
Definition arg (i : nat) (args : list value) : value := nth i args VUndefined.

End Runtime.

(** ** query.js: the query builder *)

Module DbQuery.
Import Js Runtime.
Local Open Scope js_scope.

Section Methods.

Context {B : Type}.

(** [new DbQuery (Model, db)] *)
Definition new (Model : ModelClass) (db : option DbRef) : M B loc :=
  alloc (Builder (mkBuilder Model db [])).

(** [this.pts.push (op)] *)
Definition push (this : loc) (op : Operation) : M B unit :=
  q <- this_builder this ;;
  write this (Builder (mkBuilder (_Model q) (_db q) (pts q ++ [op]))).

Definition limit (this : loc) (amt : value) : M B result :=
  push this (OpLimit amt) ;;
  ret (Ref this).

Definition skip (this : loc) (amt : value) : M B result :=
  push this (OpSkip amt) ;;
  ret (Ref this).

Definition sort (this : loc) (key directionStr : value) : M B result :=
  let directionStr := default_arg directionStr (VStr "desc") in
  directionStr <- lift (toString directionStr) ;;
  desc <-
    (if String.eqb directionStr "1" || String.eqb directionStr "asc"
        || String.eqb directionStr "ascending"
     then ret false
     else if String.eqb directionStr "-1" || String.eqb directionStr "desc"
             || String.eqb directionStr "descending"
     then ret true
     else throw (Error "Invalid sort value")) ;;
  push this (OpSort key desc) ;;
  ret (Ref this).

Definition where_ (this : loc) (key val : value) : M B result :=
  let val := default_arg val VNull in
  if instanceof_Object key && eq_null val
  then
    let filter := key in
    push this (OpFilter filter) ;;
    ret (Ref this)
  else
    push this (OpWhereEquals key val) ;;
    ret (Ref this).

Definition gt (this : loc) (key min : value) : M B result :=
  push this (OpGt min key) ;;
  ret (Ref this).

Definition lt (this : loc) (key max : value) : M B result :=
  push this (OpLt max key) ;;
  ret (Ref this).

Definition gte (this : loc) (key min : value) : M B result :=
  push this (OpGte min key) ;;
  ret (Ref this).

(** The parameters are [key] and [min]; the object literal reads [max].
    The callee [this.pts.push] is evaluated before its argument. *)
Definition lte (this : loc) (key min : value) : M B result :=
  this_builder this ;;
  max <- resolve [("key", key); ("min", min)] "max" ;;
  push this (OpLte max key) ;;
  ret (Ref this).

Variable plug : Plug B.

Definition find (this : loc) : M B value :=
  q <- this_builder this ;;
  db_call plug (_db q) (findModels (_Model q) this).

Definition findOne (this : loc) : M B value :=
  q <- this_builder this ;;
  db_call plug (_db q) (findModel (_Model q) this).

Definition count (this : loc) : M B value :=
  q <- this_builder this ;;
  db_call plug (_db q) (countModels (_Model q) this).

Definition remove (this : loc) : M B value :=
  q <- this_builder this ;;
  db_call plug (_db q) (removeModels (_Model q) this) ;;
  ret VUndefined.

Definition as_value (m : M B value) : M B result :=
  v <- m ;; ret (Val v).

(** The methods that the class body declares, by name.  The members that
    every object inherits from Object.prototype are left out; none of the
    names looked up below is among them. *)
Definition prototype : list (string * (loc -> list value -> M B result)) :=
  [ ("limit", fun this a => limit this (arg 0 a));
    ("skip", fun this a => skip this (arg 0 a));
    ("sort", fun this a => sort this (arg 0 a) (arg 1 a));
    ("where", fun this a => where_ this (arg 0 a) (arg 1 a));
    ("gt", fun this a => gt this (arg 0 a) (arg 1 a));
    ("lt", fun this a => lt this (arg 0 a) (arg 1 a));
    ("gte", fun this a => gte this (arg 0 a) (arg 1 a));
    ("lte", fun this a => lte this (arg 0 a) (arg 1 a));
    ("find", fun this _ => as_value (find this));
    ("findOne", fun this _ => as_value (findOne this));
    ("count", fun this _ => as_value (count this));
    ("remove", fun this _ => as_value (remove this)) ].

(** [receiver.name (args)]: a member that the class does not declare is
    undefined, and calling it is a TypeError. *)
Definition invoke (receiver : result) (name : string) (args : list value)
  : M B result :=
  match receiver with
  | Ref this =>
      match assoc name prototype with
      | Some method => method this args
      | None => throw (TypeError (name ++ " is not a function"))
      end
  | Val _ => throw (TypeError (name ++ " is not a function"))
  end.

(** The calls of the chain and the terminal actions, as data. *)
Inductive chain_call :=
| CallLimit (amt : value)
| CallSkip (amt : value)
| CallSort (key direction : value)
| CallWhere (key val : value)
| CallGt (key min : value)
| CallLt (key max : value)
| CallGte (key min : value)
| CallLte (key max : value).

Definition chain (this : loc) (c : chain_call) : M B result :=
  match c with
  | CallLimit amt => limit this amt
  | CallSkip amt => skip this amt
  | CallSort key direction => sort this key direction
  | CallWhere key val => where_ this key val
  | CallGt key min => gt this key min
  | CallLt key max => lt this key max
  | CallGte key min => gte this key min
  | CallLte key max => lte this key max
  end.

Inductive terminal :=
| Find
| FindOne
| Count
| Remove.

Definition run (this : loc) (t : terminal) : M B value :=
  match t with
  | Find => find this
  | FindOne => findOne this
  | Count => count this
  | Remove => remove this
  end.

End Methods.

End DbQuery.

(** ** model.js: the entity wrapper *)

Module DbModel.
Import Js Runtime.
Local Open Scope js_scope.

Section Instance.

Context {B : Type}.
Variable StringToNumber : string -> number.
Variable plug : Plug B.

(** [new Model (data, id)] with the defaults [{}] and [null]. *)
Definition new (Model : ModelClass) (data id : value) : M B loc :=
  alloc (Entity (mkEntity Model (default_arg data (obj []))
                          (default_arg id VNull))).

Definition get (this : loc) (key : value) : M B value :=
  let key := default_arg key (VStr "") in
  empty <- lift (length_is_zero key) ;;
  m <- this_entity this ;;
  if (empty : bool)
  then ret (Object_assign_empty (__data m))
  else
    match key with
    | VStr "_id" => ret (__id m)
    | _ => ret (DotProp.get (__data m) key)
    end.

Definition increment (this : loc) (key amt : value) : M B value :=
  let amt := default_arg amt (VNum (Num 1)) in
  m <- this_entity this ;;
  let currValue := DotProp.get (__data m) key in
  sum <- lift (add StringToNumber currValue amt) ;;
  data <- lift (DotProp.set (__data m) key sum) ;;
  write this (Entity (mkEntity (constructor m) data (__id m))) ;;
  ret VUndefined.

Definition decrement (this : loc) (key amt : value) : M B value :=
  let amt := default_arg amt (VNum (Num 1)) in
  m <- this_entity this ;;
  let currValue := DotProp.get (__data m) key in
  difference <- lift (sub StringToNumber currValue amt) ;;
  data <- lift (DotProp.set (__data m) key difference) ;;
  write this (Entity (mkEntity (constructor m) data (__id m))) ;;
  ret VUndefined.

(** The identity is nulled first; the request then reads [this.__id]
    again. *)
Definition remove (this : loc) : M B value :=
  m <- this_entity this ;;
  if eq_null (__id m)
  then throw (Error "Model not stored in database")
  else
    write this (Entity (mkEntity (constructor m) (__data m) VNull)) ;;
    m' <- this_entity this ;;
    db_call plug (__db (constructor m'))
            (removeById (constructor m') (__id m')) ;;
    ret VUndefined.

Definition set (this : loc) (key val : value) : M B value :=
  let val := default_arg val VNull in
  if instanceof_Object key && eq_null val
  then
    let updateObj := key in
    m <- this_entity this ;;
    data <- lift (Object_assign (__data m) updateObj) ;;
    write this (Entity (mkEntity (constructor m) data (__id m))) ;;
    ret VUndefined
  else
    m <- this_entity this ;;
    data <- lift (DotProp.set (__data m) key val) ;;
    write this (Entity (mkEntity (constructor m) data (__id m))) ;;
    ret VUndefined.

(** In the loop over an array of keys the deletions made before a
    failing one stay. *)
Definition unset (this : loc) (key : value) : M B value :=
  let key := default_arg key VNull in
  match key with
  | VObj Array keys =>
      m <- this_entity this ;;
      match DotProp.delete_each (elements keys) (__data m) with
      | (data, failure) =>
          write this (Entity (mkEntity (constructor m) data (__id m))) ;;
          match failure with
          | Some e => throw e
          | None => ret VUndefined
          end
      end
  | _ =>
      if eq_null key
      then
        m <- this_entity this ;;
        write this (Entity (mkEntity (constructor m) (obj []) (__id m))) ;;
        ret VUndefined
      else
        m <- this_entity this ;;
        data <- lift (DotProp.delete (__data m) key) ;;
        write this (Entity (mkEntity (constructor m) data (__id m))) ;;
        ret VUndefined
  end.

End Instance.

(** The static members; [this] is the entity type itself. *)
Module Static.

Section Members.

Context {B : Type}.
Variable plug : Plug B.

Definition __query (this : ModelClass) : M B result :=
  l <- DbQuery.new this (__db this) ;;
  ret (Ref l).

Definition findById (this : ModelClass) (id : value) : M B result :=
  v <- db_call plug (__db this) (Runtime.findById this id) ;;
  ret (Val v).

Definition find (this : ModelClass) (filter : value) : M B result :=
  let filter := default_arg filter (obj []) in
  q <- __query this ;;
  q <- DbQuery.invoke plug q "where" [filter] ;;
  DbQuery.invoke plug q "find" [].

Definition findOne (this : ModelClass) (filter : value) : M B result :=
  let filter := default_arg filter (obj []) in
  q <- __query this ;;
  q <- DbQuery.invoke plug q "where" [filter] ;;
  DbQuery.invoke plug q "findOne" [].

Definition count (this : ModelClass) (filter : value) : M B result :=
  let filter := default_arg filter (obj []) in
  q <- __query this ;;
  q <- DbQuery.invoke plug q "where" [filter] ;;
  DbQuery.invoke plug q "count" [].

(** [key] is not passed on. *)
Definition sum (this : ModelClass) (key filter : value) : M B result :=
  let filter := default_arg filter (obj []) in
  q <- __query this ;;
  q <- DbQuery.invoke plug q "where" [filter] ;;
  DbQuery.invoke plug q "sum" [].

Definition remove (this : ModelClass) (filter : value) : M B result :=
  let filter := default_arg filter (obj []) in
  q <- __query this ;;
  q <- DbQuery.invoke plug q "where" [filter] ;;
  DbQuery.invoke plug q "remove" [].

Definition limit (this : ModelClass) (amt : value) : M B result :=
  q <- __query this ;;
  DbQuery.invoke plug q "limit" [amt].

Definition skip (this : ModelClass) (amt : value) : M B result :=
  q <- __query this ;;
  DbQuery.invoke plug q "skip" [amt].

Definition sort (this : ModelClass) (key direction : value) : M B result :=
  q <- __query this ;;
  DbQuery.invoke plug q "sort" [key; direction].

Definition where_ (this : ModelClass) (key val : value) : M B result :=
  q <- __query this ;;
  DbQuery.invoke plug q "where" [key; val].

Definition gt (this : ModelClass) (key min : value) : M B result :=
  q <- __query this ;;
  DbQuery.invoke plug q "gt" [key; min].

Definition lt (this : ModelClass) (key max : value) : M B result :=
  q <- __query this ;;
  DbQuery.invoke plug q "lt" [key; max].

Definition gte (this : ModelClass) (key min : value) : M B result :=
  q <- __query this ;;
  DbQuery.invoke plug q "gte" [key; min].

(** Delegates to the builder's [gt]. *)
Definition lte (this : ModelClass) (key max : value) : M B result :=
  q <- __query this ;;
  DbQuery.invoke plug q "gt" [key; max].

(** The static methods that the class body declares, by name (the getter
    [raw] is no method).  Inherited members of functions are left out;
    none of the names looked up below is among them. *)
Definition members
  : list (string * (ModelClass -> list value -> M B result)) :=
  [ ("__query", fun this _ => __query this);
    ("findById", fun this a => findById this (arg 0 a));
    ("find", fun this a => find this (arg 0 a));
    ("findOne", fun this a => findOne this (arg 0 a));
    ("count", fun this a => count this (arg 0 a));
    ("sum", fun this a => sum this (arg 0 a) (arg 1 a));
    ("remove", fun this a => remove this (arg 0 a));
    ("limit", fun this a => limit this (arg 0 a));
    ("skip", fun this a => skip this (arg 0 a));
    ("sort", fun this a => sort this (arg 0 a) (arg 1 a));
    ("where", fun this a => where_ this (arg 0 a) (arg 1 a));
    ("gt", fun this a => gt this (arg 0 a) (arg 1 a));
    ("lt", fun this a => lt this (arg 0 a) (arg 1 a));
    ("gte", fun this a => gte this (arg 0 a) (arg 1 a));
    ("lte", fun this a => lte this (arg 0 a) (arg 1 a)) ].

(** [Model.name (args)] *)
Definition invoke (this : ModelClass) (name : string) (args : list value)
  : M B result :=
  match assoc name members with
  | Some method => method this args
  | None => throw (TypeError (name ++ " is not a function"))
  end.

End Members.

End Static.

End DbModel.

(** ** Vocabulary of the statements *)

Import Js Runtime.

(** The builder [q] with the nodes [new] appended to its operation list. *)
Definition appended (q : builder) (new : list Operation) : builder :=
  mkBuilder (_Model q) (_db q) (pts q ++ new).

(** The state [s] with the object at [l] replaced by [o]. *)
Definition store_at {B : Type} (s : state B) (l : loc) (o : object)
  : state B :=
  mkState (<[l := o]> (heap s)) (backend s) (calls s).

(** Between [s] and [s'] nothing happened but the builder at [this], which
    was [q], receiving the nodes [new] at the end of its list. *)
Definition extends_by {B : Type} (s s' : state B) (this : loc) (q : builder)
  (new : list Operation) : Prop :=
  heap s' = <[this := Builder (appended q new)]> (heap s)
  /\ backend s' = backend s
  /\ calls s' = calls s.

(** A plug that does not write to builders: whatever it does to the
    store, every builder is afterwards what it was. *)
Definition keeps_builders {B : Type} (plug : Plug B) : Prop :=
  forall db c h b l q,
    h !! l = Some (Builder q) -> (plug db c h b).1.2 !! l = Some (Builder q).

(** The request that a terminal action sends. *)
Definition request (t : DbQuery.terminal) : ModelClass -> loc -> DbCall :=
  match t with
  | DbQuery.Find => findModels
  | DbQuery.FindOne => findModel
  | DbQuery.Count => countModels
  | DbQuery.Remove => removeModels
  end.

(** Whether a string contains a dot. *)
Fixpoint has_dot (p : string) : bool :=
  match p with
  | EmptyString => false
  | String c rest => Ascii.eqb c "." || has_dot rest
  end.

(** The six spellings that [sort] knows. *)
Definition ascending_spellings : list string := ["1"; "asc"; "ascending"].
Definition descending_spellings : list string := ["-1"; "desc"; "descending"].

(** The method names that the test suite calls besides those of the
    comparison family. *)
Definition further_operators : list string :=
  ["ne"; "nin"; "match"; "elem"; "or"; "and"].

(** The rest of [sort] once the direction has its string form. *)
Definition sort_body {B : Type} (this : loc) (key : value) (str : string) : M B result :=
  bind
    (if String.eqb str "1" || String.eqb str "asc"
        || String.eqb str "ascending"
     then ret false
     else if String.eqb str "-1" || String.eqb str "desc"
             || String.eqb str "descending"
     then ret true
     else throw (Error "Invalid sort value"))
    (fun desc => bind (DbQuery.push this (OpSort key desc))
                      (fun _ => ret (Ref this))).

(** A small world for the examples: a plug that answers every request
    with [null] and touches nothing, an entity type bound to it, a builder
    that already holds a [limit] node, and an entity that was saved under
    the identity ["abc"] and whose data has a field named ["_id"]. *)
Definition quiet_plug : Plug unit := fun _ _ h b => (Return VNull, h, b).

Definition Model : ModelClass := mkClass "Model" (Some "db").

Definition a_builder : builder :=
  mkBuilder Model (Some "db") [OpLimit (VNum (Num 2))].

Definition an_entity : entity :=
  mkEntity Model (obj [("_id", VNum (Num 7)); ("a", VNum (Num 1))])
           (VStr "abc").

Definition unsaved_entity : entity :=
  mkEntity Model (obj [("a", VNum (Num 1))]) VNull.

Definition a_state : state unit :=
  mkState {[ 0%nat := Builder a_builder; 1%nat := Entity an_entity;
             2%nat := Entity unsaved_entity ]} tt [].


(** The node that a chain call leaves on the list when it succeeds. *)
Inductive pushes : DbQuery.chain_call -> Operation -> Prop :=
| pushes_limit amt : pushes (DbQuery.CallLimit amt) (OpLimit amt)
| pushes_skip amt : pushes (DbQuery.CallSkip amt) (OpSkip amt)
| pushes_sort_ascending key direction str :
    toString (default_arg direction (VStr "desc")) = Return str ->
    In str ascending_spellings ->
    pushes (DbQuery.CallSort key direction) (OpSort key false)
| pushes_sort_descending key direction str :
    toString (default_arg direction (VStr "desc")) = Return str ->
    In str descending_spellings ->
    pushes (DbQuery.CallSort key direction) (OpSort key true)
| pushes_filter key val :
    instanceof_Object key = true -> eq_null val = true ->
    pushes (DbQuery.CallWhere key val) (OpFilter key)
| pushes_equals key val :
    instanceof_Object key && eq_null val = false ->
    pushes (DbQuery.CallWhere key val)
           (OpWhereEquals key (default_arg val VNull))
| pushes_gt key min : pushes (DbQuery.CallGt key min) (OpGt min key)
| pushes_lt key max : pushes (DbQuery.CallLt key max) (OpLt max key)
| pushes_gte key min : pushes (DbQuery.CallGte key min) (OpGte min key).

(** The static twin of a chain call and of a terminal action. *)
Definition static_chain {B : Type} (plug : Plug B) (C : ModelClass)
  (c : DbQuery.chain_call) : M B result :=
  match c with
  | DbQuery.CallLimit amt => DbModel.Static.limit plug C amt
  | DbQuery.CallSkip amt => DbModel.Static.skip plug C amt
  | DbQuery.CallSort key direction => DbModel.Static.sort plug C key direction
  | DbQuery.CallWhere key val => DbModel.Static.where_ plug C key val
  | DbQuery.CallGt key min => DbModel.Static.gt plug C key min
  | DbQuery.CallLt key max => DbModel.Static.lt plug C key max
  | DbQuery.CallGte key min => DbModel.Static.gte plug C key min
  | DbQuery.CallLte key max => DbModel.Static.lte plug C key max
  end.

Definition static_terminal {B : Type} (plug : Plug B) (C : ModelClass)
  (t : DbQuery.terminal) (filter : value) : M B result :=
  match t with
  | DbQuery.Find => DbModel.Static.find plug C filter
  | DbQuery.FindOne => DbModel.Static.findOne plug C filter
  | DbQuery.Count => DbModel.Static.count plug C filter
  | DbQuery.Remove => DbModel.Static.remove plug C filter
  end.

Definition is_lte (c : DbQuery.chain_call) : bool :=
  match c with DbQuery.CallLte _ _ => true | _ => false end.

(** What a terminal action makes of the answer of the plug. *)
Definition answer_of (t : DbQuery.terminal) (v : value) : value :=
  match t with DbQuery.Remove => VUndefined | _ => v end.

(** A plug that does not write to entities. *)
Definition keeps_entities {B : Type} (plug : Plug B) : Prop :=
  forall db c h b l m,
    h !! l = Some (Entity m) -> (plug db c h b).1.2 !! l = Some (Entity m).

(** The integers that a number holds exactly. *)
Definition safe_integer (z : Z) : Prop := (- 2 ^ 53 <= z <= 2 ^ 53)%Z.

(** The amount that [increment] and [decrement] work with. *)
Definition amount (amt : value) : value := default_arg amt (VNum (Num 1)).

(** A plug that refuses every request, for the examples. *)
Definition failing_plug : Plug unit :=
  fun _ _ h b => (Throw (Rejected (VStr "down")), h, b).

(** [unset (k1); unset (k2); ...] *)
Fixpoint unset_each {B : Type} (this : loc) (keys : list value)
  : M B value :=
  match keys with
  | [] => ret VUndefined
  | k :: ks => bind (DbModel.unset this k) (fun _ => unset_each this ks)
  end.

(** The chain calls that have a way to fail. *)
Definition can_fail (c : DbQuery.chain_call) : bool :=
  match c with
  | DbQuery.CallSort _ _ | DbQuery.CallLte _ _ => true
  | _ => false
  end.

(** An unsaved entity with a string in a field, for the examples. *)
Definition string_entity : entity :=
  mkEntity Model (obj [("n", VStr "5")]) VNull.

(** An entity made with [null] for its data. *)
Definition null_entity : entity := mkEntity Model VNull VNull.

Definition b_state : state unit :=
  mkState {[ 0%nat := Entity string_entity; 1%nat := Entity null_entity ]}
          tt [].



(** The two property names that a write treats in a way of its own. *)
Definition special_key (k : string) : bool :=
  String.eqb k "__proto__" || String.eqb k "length".

(** A number that is held exactly: not-a-number, or an integer of at
    most 2^53 in magnitude. *)
Definition exact (n : number) : Prop :=
  match n with
  | NaN => True
  | Num z => (- 2 ^ 53 <= z <= 2 ^ 53)%Z
  end.

(** An unsaved entity with an array in a field, and a direction with a
    [toString] of its own, for the examples. *)
Definition list_entity : entity :=
  mkEntity Model (obj [("l", VObj Array [("0", VNum (Num 1))])]) VNull.

(** An unsaved entity whose data is an array, and one whose data has a
    field named ["__proto__"] of its own. *)
Definition array_entity : entity :=
  mkEntity Model (VObj Array [("0", VNum (Num 1))]) VNull.

Definition proto_entity : entity :=
  mkEntity Model (obj [("__proto__", VNum (Num 5)); ("a", VNum (Num 1))])
           VNull.

Definition c_state : state unit :=
  mkState {[ 0%nat := Entity list_entity; 1%nat := Entity array_entity;
             2%nat := Entity proto_entity ]} tt [].

Definition odd_direction : value := obj [("toString", VNum (Num 1))].

(** ** Properties *)

Section BuilderFacts.

Context {B : Type}.
Implicit Types (s : state B) (q : builder) (this : loc).

Lemma appended_nil q : appended q [] = q.
Proof. destruct q; unfold appended; simpl. by rewrite app_nil_r. Qed.

Lemma store_at_same s this q :
  heap s !! this = Some (Builder q) ->
  store_at s this (Builder (appended q [])) = s.
Proof.
  intros Hq. destruct s as [h b c]; unfold store_at; simpl in *.
  rewrite appended_nil. by rewrite insert_id.
Qed.

Lemma extends_by_store s this q new :
  extends_by s (store_at s this (Builder (appended q new))) this q new.
Proof. by repeat split. Qed.

Lemma extends_by_refl s this q :
  heap s !! this = Some (Builder q) -> extends_by s s this q [].
Proof.
  intros Hq. repeat split. rewrite appended_nil. by rewrite insert_id.
Qed.

Lemma push_spec s this q op :
  heap s !! this = Some (Builder q) ->
  DbQuery.push this op s
  = (Return tt, store_at s this (Builder (appended q [op]))).
Proof.
  intros Hq. unfold DbQuery.push, bind, this_builder, write.
  by rewrite Hq.
Qed.

Lemma push_then s this q op {A : Type} (k : M B A) :
  heap s !! this = Some (Builder q) ->
  bind (DbQuery.push this op) (fun _ => k) s
  = k (store_at s this (Builder (appended q [op]))).
Proof. intros Hq. unfold bind at 1. by rewrite (push_spec _ _ _ _ Hq). Qed.

Lemma limit_spec s this q amt :
  heap s !! this = Some (Builder q) ->
  DbQuery.limit this amt s
  = (Return (Ref this), store_at s this (Builder (appended q [OpLimit amt]))).
Proof. intros Hq. unfold DbQuery.limit. by rewrite (push_then _ _ _ _ _ Hq). Qed.

Lemma skip_spec s this q amt :
  heap s !! this = Some (Builder q) ->
  DbQuery.skip this amt s
  = (Return (Ref this), store_at s this (Builder (appended q [OpSkip amt]))).
Proof. intros Hq. unfold DbQuery.skip. by rewrite (push_then _ _ _ _ _ Hq). Qed.

Lemma gt_spec s this q key min :
  heap s !! this = Some (Builder q) ->
  DbQuery.gt this key min s
  = (Return (Ref this), store_at s this (Builder (appended q [OpGt min key]))).
Proof. intros Hq. unfold DbQuery.gt. by rewrite (push_then _ _ _ _ _ Hq). Qed.

Lemma lt_spec s this q key max :
  heap s !! this = Some (Builder q) ->
  DbQuery.lt this key max s
  = (Return (Ref this), store_at s this (Builder (appended q [OpLt max key]))).
Proof. intros Hq. unfold DbQuery.lt. by rewrite (push_then _ _ _ _ _ Hq). Qed.

Lemma gte_spec s this q key min :
  heap s !! this = Some (Builder q) ->
  DbQuery.gte this key min s
  = (Return (Ref this), store_at s this (Builder (appended q [OpGte min key]))).
Proof. intros Hq. unfold DbQuery.gte. by rewrite (push_then _ _ _ _ _ Hq). Qed.

Lemma lte_spec s this q key bound :
  heap s !! this = Some (Builder q) ->
  DbQuery.lte this key bound s
  = (Throw (ReferenceError "max is not defined"), s).
Proof.
  intros Hq. unfold DbQuery.lte, bind, this_builder. by rewrite Hq.
Qed.

(** [where] in its three situations. *)
Lemma where_filter_spec s this q key val :
  heap s !! this = Some (Builder q) ->
  instanceof_Object key = true -> eq_null val = true ->
  DbQuery.where_ this key val s
  = (Return (Ref this), store_at s this (Builder (appended q [OpFilter key]))).
Proof.
  intros Hq Hk Hv. unfold DbQuery.where_.
  assert (eq_null (default_arg val VNull) = true) as -> by by destruct val.
  rewrite Hk; simpl. by rewrite (push_then _ _ _ _ _ Hq).
Qed.

Lemma where_equals_spec s this q key val :
  heap s !! this = Some (Builder q) ->
  instanceof_Object key && eq_null val = false ->
  DbQuery.where_ this key val s
  = (Return (Ref this),
     store_at s this
       (Builder (appended q [OpWhereEquals key (default_arg val VNull)]))).
Proof.
  intros Hq Hc. unfold DbQuery.where_.
  assert (eq_null (default_arg val VNull) = eq_null val) as -> by by destruct val.
  rewrite Hc. by rewrite (push_then _ _ _ _ _ Hq).
Qed.

Lemma sort_unfold this key direction s :
  DbQuery.sort this key direction s
  = match toString (default_arg direction (VStr "desc")) with
    | Return str => sort_body this key str s
    | Throw e => (Throw e, s)
    end.
Proof.
  unfold DbQuery.sort, sort_body, bind at 1, lift.
  by destruct (toString _).
Qed.

Lemma sort_body_ascending s this q key str :
  heap s !! this = Some (Builder q) ->
  In str ascending_spellings ->
  sort_body this key str s
  = (Return (Ref this),
     store_at s this (Builder (appended q [OpSort key false]))).
Proof.
  intros Hq Hin. unfold sort_body.
  assert (String.eqb str "1" || String.eqb str "asc"
          || String.eqb str "ascending" = true) as ->.
  { simpl in Hin. destruct Hin as [<-|[<-|[<-|[]]]]; reflexivity. }
  unfold bind at 1, ret at 1. by rewrite (push_then _ _ _ _ _ Hq).
Qed.

Lemma sort_body_descending s this q key str :
  heap s !! this = Some (Builder q) ->
  In str descending_spellings ->
  sort_body this key str s
  = (Return (Ref this),
     store_at s this (Builder (appended q [OpSort key true]))).
Proof.
  intros Hq Hin. unfold sort_body.
  assert (String.eqb str "1" || String.eqb str "asc"
          || String.eqb str "ascending" = false) as ->.
  { simpl in Hin. destruct Hin as [<-|[<-|[<-|[]]]]; reflexivity. }
  assert (String.eqb str "-1" || String.eqb str "desc"
          || String.eqb str "descending" = true) as ->.
  { simpl in Hin. destruct Hin as [<-|[<-|[<-|[]]]]; reflexivity. }
  unfold bind at 1, ret at 1. by rewrite (push_then _ _ _ _ _ Hq).
Qed.

Lemma sort_body_other s this key str :
  ~ In str (ascending_spellings ++ descending_spellings) ->
  sort_body this key str s = (Throw (Error "Invalid sort value"), s).
Proof.
  intros Hin. unfold sort_body.
  assert (forall x, In x (ascending_spellings ++ descending_spellings) ->
                    String.eqb str x = false) as Hne.
  { intros x Hx. apply String.eqb_neq. intros ->. by apply Hin. }
  rewrite !Hne; simpl; auto 10.
Qed.

End BuilderFacts.

Section QueryConstructors.

Context {B : Type}.
Variable plug : Plug B.
Implicit Types (s : state B) (q : builder) (this : loc).

Lemma fresh_unused s : heap s !! fresh (dom (heap s)) = None.
Proof. apply not_elem_of_dom, is_fresh. Qed.

Lemma query_spec (C : ModelClass) s :
  DbModel.Static.__query C s
  = (Return (Ref (fresh (dom (heap s)))),
     store_at s (fresh (dom (heap s)))
       (Builder (mkBuilder C (__db C) []))).
Proof. reflexivity. Qed.

Lemma store_at_twice s l o o' :
  store_at (store_at s l o) l o' = store_at s l o'.
Proof. unfold store_at; simpl. by rewrite insert_insert_eq. Qed.

Lemma store_at_lookup s l o : heap (store_at s l o) !! l = Some o.
Proof. apply lookup_insert_eq. Qed.

(** A query constructor that pushes [op] on the fresh builder. *)
Lemma constructor_spec (C : ModelClass) s (k : result -> M B result) op :
  (forall this s' q, heap s' !! this = Some (Builder q) ->
     k (Ref this) s'
     = (Return (Ref this), store_at s' this (Builder (appended q [op])))) ->
  bind (DbModel.Static.__query C) k s
  = (Return (Ref (fresh (dom (heap s)))),
     store_at s (fresh (dom (heap s)))
       (Builder (mkBuilder C (__db C) [op]))).
Proof.
  intros Hk. unfold bind. rewrite query_spec.
  erewrite Hk by apply store_at_lookup.
  by rewrite store_at_twice.
Qed.

Lemma static_lte_spec (C : ModelClass) s key bound :
  DbModel.Static.lte plug C key bound s
  = (Return (Ref (fresh (dom (heap s)))),
     store_at s (fresh (dom (heap s)))
       (Builder (mkBuilder C (__db C) [OpGt bound key]))).
Proof.
  unfold DbModel.Static.lte. apply constructor_spec.
  intros this s' q Hq. simpl. by apply gt_spec.
Qed.

Lemma static_where_filter_spec (C : ModelClass) s filter :
  instanceof_Object filter = true ->
  DbModel.Static.where_ plug C filter VUndefined s
  = (Return (Ref (fresh (dom (heap s)))),
     store_at s (fresh (dom (heap s)))
       (Builder (mkBuilder C (__db C) [OpFilter filter]))).
Proof.
  intros Hf. unfold DbModel.Static.where_. apply constructor_spec.
  intros this s' q Hq. simpl. by apply where_filter_spec.
Qed.

End QueryConstructors.

Section BuilderClaims.

Context {B : Type}.
Variable plug : Plug B.
Implicit Types (s : state B) (q : builder) (this : loc).

(** C1, as the code behaves: on every builder, [lte (key, bound)] raises a
    ReferenceError for the unbound identifier [max] and leaves the whole
    state, hence the operation list, as it was: no [lte] node is appended
    and no builder is returned.  The static [lte (key, bound)] of an
    entity type creates a fresh builder whose single node is a [gt] node
    with [min] the bound, not an [lte] node. *)
Theorem lte_raises_and_static_lte_pushes_gt
  s this q (C : ModelClass) (key bound : value) :
  heap s !! this = Some (Builder q) ->
  DbQuery.lte this key bound s
  = (Throw (ReferenceError "max is not defined"), s)
  /\ exists l,
      heap s !! l = None
      /\ DbModel.Static.lte plug C key bound s
         = (Return (Ref l),
            store_at s l (Builder (mkBuilder C (__db C) [OpGt bound key])))
      /\ map type [OpGt bound key] = ["gt"].
Proof.
  intros Hq. split.
  - by apply lte_spec with q.
  - exists (fresh (dom (heap s))). split; [apply fresh_unused|].
    split; [apply static_lte_spec | reflexivity].
Qed.

(** C2, as the code behaves: none of [ne], [nin], [match], [elem], [or]
    and [and] is a method of the builder or a static method of the entity
    type; calling one of them raises a TypeError and leaves the state, and
    so every operation list, untouched. *)
Theorem further_operators_are_not_functions :
  Forall
    (fun name =>
       assoc name (DbQuery.prototype plug) = None
       /\ assoc name (DbModel.Static.members plug) = None
       /\ (forall this args s,
             DbQuery.invoke plug (Ref this) name args s
             = (Throw (TypeError (name ++ " is not a function")), s))
       /\ (forall (C : ModelClass) args s,
             DbModel.Static.invoke plug C name args s
             = (Throw (TypeError (name ++ " is not a function")), s)))
    further_operators.
Proof. repeat constructor. Qed.

(** C4, as the code behaves: the builder has no method [sum], so
    [sum (key)] raises a TypeError without a request to the plug; the
    static [sum (key, filter)] pushes the filter on a fresh builder, calls
    the missing method without passing [key], and fails the same way,
    again without any request to the plug. *)
Theorem sum_is_not_a_function :
  assoc "sum" (DbQuery.prototype plug) = None
  /\ (forall this key s,
        DbQuery.invoke plug (Ref this) "sum" [key] s
        = (Throw (TypeError "sum is not a function"), s))
  /\ (forall (C : ModelClass) key s,
        DbModel.Static.sum plug C key VUndefined s
        = (Throw (TypeError "sum is not a function"),
           store_at s (fresh (dom (heap s)))
             (Builder (mkBuilder C (__db C) [OpFilter (obj [])]))))
  /\ (forall (C : ModelClass) key filter s,
        (DbModel.Static.sum plug C key filter s).1
        = Throw (TypeError "sum is not a function")
        /\ calls (DbModel.Static.sum plug C key filter s).2 = calls s).
Proof.
  split; [reflexivity|]. split; [reflexivity|].
  split.
  - intros C key s. unfold DbModel.Static.sum; simpl.
    unfold bind at 1. rewrite query_spec.
    unfold bind at 1. simpl DbQuery.invoke at 1.
    erewrite where_filter_spec; [|apply store_at_lookup|done|done].
    by rewrite store_at_twice.
  - intros C key filter s.
    assert (exists s',
              DbModel.Static.sum plug C key filter s
              = (Throw (TypeError "sum is not a function"), s')
              /\ calls s' = calls s) as (s' & -> & Hcalls); [|done].
    unfold DbModel.Static.sum.
    unfold bind at 1. rewrite query_spec.
    unfold bind at 1. simpl DbQuery.invoke at 1. unfold arg; simpl nth.
    set (s1 := store_at _ _ _).
    assert (heap s1 !! fresh (dom (heap s))
            = Some (Builder (mkBuilder C (__db C) []))) as Hq
        by apply store_at_lookup.
    destruct (instanceof_Object (default_arg filter (obj []))
              && eq_null VUndefined) eqn:Hc.
    + apply andb_prop in Hc as [Hk _].
      rewrite (where_filter_spec s1 _ _ _ VUndefined Hq Hk eq_refl).
      eexists; split; reflexivity.
    + rewrite (where_equals_spec s1 _ _ _ VUndefined Hq Hc).
      eexists; split; reflexivity.
Qed.

(** C5, amended: [sort] compares the string form of the direction exactly,
    letter case included.  The directions [1], ["1"], ["asc"] and
    ["ascending"] append an ascending sort node; [-1], ["-1"], ["desc"],
    ["descending"] and an omitted direction append a descending one; in
    both cases the builder itself is returned.  Any other direction whose
    string form is none of the six spellings fails with the error
    "Invalid sort value".  A direction that has no string form, [null] or
    an object whose [toString] member is no function, fails with the
    TypeError of that call.  A failing call appends no node. *)
Theorem sort_direction_is_exact s this q (key direction : value) :
  heap s !! this = Some (Builder q) ->
  (In direction [VNum (Num 1); VStr "1"; VStr "asc"; VStr "ascending"] ->
     DbQuery.sort this key direction s
     = (Return (Ref this),
        store_at s this (Builder (appended q [OpSort key false]))))
  /\ (In direction [VUndefined; VNum (Num (-1)); VStr "-1"; VStr "desc";
                    VStr "descending"] ->
        DbQuery.sort this key direction s
        = (Return (Ref this),
           store_at s this (Builder (appended q [OpSort key true]))))
  /\ (forall str,
        direction <> VUndefined ->
        toString direction = Return str ->
        ~ In str (ascending_spellings ++ descending_spellings) ->
        DbQuery.sort this key direction s
        = (Throw (Error "Invalid sort value"), s))
  /\ (direction = VNull ->
        DbQuery.sort this key direction s
        = (Throw (TypeError "Cannot read properties of null"), s))
  /\ (forall e,
        direction <> VUndefined ->
        toString direction = Throw e ->
        DbQuery.sort this key direction s = (Throw e, s)).
Proof.
  intros Hq.
  assert (forall e, direction <> VUndefined ->
            toString direction = Throw e ->
            DbQuery.sort this key direction s = (Throw e, s)) as Hfail.
  { intros e Hd He. rewrite sort_unfold.
    assert (default_arg direction (VStr "desc") = direction) as ->
        by by destruct direction.
    by rewrite He. }
  split; [|split; [|split; [|split; [|exact Hfail]]]].
  - intros Hin. rewrite sort_unfold. simpl in Hin.
    destruct Hin as [<-|[<-|[<-|[<-|[]]]]]; simpl;
      apply sort_body_ascending; simpl; auto.
  - intros Hin. rewrite sort_unfold. simpl in Hin.
    destruct Hin as [<-|[<-|[<-|[<-|[<-|[]]]]]]; simpl;
      apply sort_body_descending; simpl; auto.
  - intros str Hd Hstr Hin. rewrite sort_unfold.
    assert (default_arg direction (VStr "desc") = direction) as ->
        by by destruct direction.
    rewrite Hstr. by apply sort_body_other.
  - intros ->. by rewrite sort_unfold.
Qed.

(** C6, amended: [where] never rejects its arguments.  A mapping with no
    or a null second argument appends one filter node; a mapping with a
    non-null second argument appends one whereEquals node whose [prop] is
    the mapping and whose [value] is that argument; a key that is no
    mapping appends one whereEquals node, with the value [null] when none
    is given.  In each case the builder itself is returned. *)
Theorem where_appends_and_never_rejects s this q (key val : value) :
  heap s !! this = Some (Builder q) ->
  (instanceof_Object key = true -> eq_null val = true ->
     DbQuery.where_ this key val s
     = (Return (Ref this),
        store_at s this (Builder (appended q [OpFilter key]))))
  /\ (instanceof_Object key = true -> eq_null val = false ->
        DbQuery.where_ this key val s
        = (Return (Ref this),
           store_at s this (Builder (appended q [OpWhereEquals key val]))))
  /\ (instanceof_Object key = false ->
        DbQuery.where_ this key val s
        = (Return (Ref this),
           store_at s this
             (Builder
                (appended q [OpWhereEquals key (default_arg val VNull)])))).
Proof.
  intros Hq. repeat split.
  - intros Hk Hv. by apply where_filter_spec.
  - intros Hk Hv. erewrite where_equals_spec; [|done|by rewrite Hk, Hv].
    by destruct val.
  - intros Hk. erewrite where_equals_spec; [done|done|by rewrite Hk].
Qed.

(** C8: every chain call ([limit], [skip], [sort], [where], [gt], [lt],
    [gte], [lte]) on a builder only adds nodes at the end of the receiver's
    operation list, at most one of them, and touches nothing else; when it
    returns, the value returned is the receiver itself. *)
Theorem chain_is_append_only s this q (c : DbQuery.chain_call) :
  heap s !! this = Some (Builder q) ->
  exists new,
    length new <= 1
    /\ extends_by s (DbQuery.chain this c s).2 this q new
    /\ (forall r, (DbQuery.chain this c s).1 = Return r -> r = Ref this).
Proof.
  intros Hq.
  assert (forall op (r : outcome result * state B),
            r = (Return (Ref this),
                 store_at s this (Builder (appended q [op]))) ->
            exists new,
              length new <= 1 /\ extends_by s r.2 this q new
              /\ (forall x, r.1 = Return x -> x = Ref this)) as Hone.
  { intros op r ->. exists [op]. split; [simpl; lia|].
    split; [apply extends_by_store|]. simpl. congruence. }
  assert (forall e (r : outcome result * state B),
            r = (Throw e, s) ->
            exists new,
              length new <= 1 /\ extends_by s r.2 this q new
              /\ (forall x, r.1 = Return x -> x = Ref this)) as Hnone.
  { intros e r ->. exists []. split; [simpl; lia|].
    split; [by apply extends_by_refl|]. simpl. congruence. }
  destruct c as [amt|amt|key direction|key val|key m|key m|key m|key m];
    simpl DbQuery.chain.
  - eapply Hone. by apply limit_spec.
  - eapply Hone. by apply skip_spec.
  - rewrite sort_unfold.
    destruct (toString (default_arg direction (VStr "desc"))) as [str|e];
      [|by eapply Hnone].
    unfold sort_body.
    destruct (String.eqb str "1" || String.eqb str "asc"
              || String.eqb str "ascending").
    { eapply Hone. unfold bind at 1, ret at 1.
      by rewrite (push_then _ _ _ _ _ Hq). }
    destruct (String.eqb str "-1" || String.eqb str "desc"
              || String.eqb str "descending").
    { eapply Hone. unfold bind at 1, ret at 1.
      by rewrite (push_then _ _ _ _ _ Hq). }
    by eapply Hnone.
  - destruct (instanceof_Object key && eq_null val) eqn:Hc.
    + apply andb_prop in Hc as [Hk Hv].
      eapply Hone. by apply where_filter_spec.
    + eapply Hone. by apply where_equals_spec.
  - eapply Hone. by apply gt_spec.
  - eapply Hone. by apply lt_spec.
  - eapply Hone. by apply gte_spec.
  - eapply Hnone. by apply lte_spec with q.
Qed.

End BuilderClaims.

(** ** Dot paths *)

Section DotPaths.

Lemma assoc_update {A : Type} (k : string) (a : A) l :
  assoc k (update k a l) = Some a.
Proof.
  induction l as [|[k' a'] l IH]; simpl.
  - by rewrite String.eqb_refl.
  - destruct (String.eqb k k') eqn:Hk; simpl.
    + by rewrite String.eqb_refl.
    + by rewrite Hk.
Qed.

Lemma assoc_update_ne {A : Type} (k k' : string) (a : A) l :
  k <> k' -> assoc k (update k' a l) = assoc k l.
Proof.
  intros Hne. apply String.eqb_neq in Hne.
  induction l as [|[k0 a0] l IH]; simpl.
  - by rewrite Hne.
  - destruct (String.eqb k' k0) eqn:Hk; simpl.
    + apply String.eqb_eq in Hk as <-. by rewrite Hne.
    + by rewrite IH.
Qed.

Lemma assoc_filter_eq {A : Type} (k : string) (l : list (string * A)) :
  assoc k (List.filter (fun kv => negb (String.eqb k (fst kv))) l) = None.
Proof.
  induction l as [|[k0 a0] l IH]; [done|]. simpl.
  destruct (String.eqb k k0) eqn:Hk; simpl; [done|]. by rewrite Hk.
Qed.

Lemma assoc_filter_ne {A : Type} (k k' : string) (l : list (string * A)) :
  k' <> k ->
  assoc k' (List.filter (fun kv => negb (String.eqb k (fst kv))) l)
  = assoc k' l.
Proof.
  intros Hne. induction l as [|[k0 a0] l IH]; [done|]. simpl.
  destruct (String.eqb k k0) eqn:Hk; simpl.
  - apply String.eqb_eq in Hk as <-.
    apply String.eqb_neq in Hne. by rewrite Hne.
  - by rewrite IH.
Qed.

Lemma split_nonempty p : DotProp.split p <> [].
Proof.
  induction p as [|c p IH]; simpl; [done|].
  destruct (Ascii.eqb c "."); [done|]. by destruct (DotProp.split p).
Qed.

Lemma join_escaped_nonempty rest : forall p, DotProp.join_escaped p rest <> [].
Proof.
  induction rest as [|next rest IH]; intros p; simpl; [done|].
  destruct (DotProp.ends_with_backslash p); [apply IH | done].
Qed.

Lemma getPathSegments_nonempty p : DotProp.getPathSegments p <> [].
Proof.
  unfold DotProp.getPathSegments.
  destruct (DotProp.split p) eqn:Hs; [by apply split_nonempty in Hs|].
  apply join_escaped_nonempty.
Qed.






(** Overwriting a property of the object's own is an ordinary write. *)
Lemma set_last_own (c : objclass) props (seg : string) (v w : value) :
  assoc seg props = Some w ->
  DotProp.set_last c props seg v = Return (update seg v props).
Proof. intros Hw. unfold DotProp.set_last. by rewrite Hw. Qed.

Lemma get_segments_last (c : objclass) props (seg : string) (v : value) :
  DotProp.get_segments (VObj c (update seg v props)) [seg] = v.
Proof. simpl. rewrite assoc_update. by destruct v. Qed.

Lemma get_segments_step (c : objclass) props (seg : string) rest c' props' :
  DotProp.get_segments (VObj c (update seg (VObj c' props') props))
    (seg :: rest)
  = DotProp.get_segments (VObj c' props') rest.
Proof. simpl. rewrite assoc_update. simpl. by destruct rest. Qed.

Lemma set_segments_step (c : objclass) props (seg seg' : string) rest v :
  DotProp.set_segments (VObj c props) (seg :: seg' :: rest) v
  = match assoc seg props with
    | Some child =>
        match DotProp.set_segments
                (if DotProp.isObj child then child else obj [])
                (seg' :: rest) v with
        | Return child' => Return (VObj c (update seg child' props))
        | Throw e => Throw e
        end
    | None =>
        if match c with
           | Array => String.eqb seg "length"
           | Plain => false
           end
        then Throw (RangeError "Invalid array length")
        else if DotProp.inherits c seg
        then Throw (Beyond "the path enters an inherited member")
        else
          match DotProp.set_segments (obj []) (seg' :: rest) v with
          | Return child' => Return (VObj c (update seg child' props))
          | Throw e => Throw e
          end
    end.
Proof. reflexivity. Qed.


(** A path that runs into a string never ends at a number. *)
Lemma string_get_not_number rest : forall (str : string) (n : number),
  DotProp.get_segments (VStr str) rest <> VNum n.
Proof.
  induction rest as [|seg rest IH]; intros str n; simpl; [done|].
  destruct (parse_index seg) as [i|]; [|done].
  destruct (String.get i str) as [ch|]; [|done]. simpl. apply IH.
Qed.

(** Where [get] finds a number, the path consists of properties that the
    objects on it have of their own, and [set] overwrites the number. *)
Lemma get_set_found segs : forall c props (n : number) (v : value),
  DotProp.get_segments (VObj c props) segs = VNum n ->
  exists c' props',
    DotProp.set_segments (VObj c props) segs v = Return (VObj c' props')
    /\ DotProp.get_segments (VObj c' props') segs = v.
Proof.
  induction segs as [|seg rest IH]; intros c props n v Hget; [done|].
  cbn [DotProp.get_segments DotProp.own_property] in Hget.
  destruct (assoc seg props) as [child|] eqn:Hchild; [|done].
  destruct rest as [|seg' rest].
  - exists c, (update seg v props). split.
    + simpl. by rewrite (set_last_own _ _ _ _ _ Hchild).
    + apply get_segments_last.
  - destruct (eq_null child) eqn:Hnull; [done|].
    destruct child as [| | | |str|c0 p0]; try done.
    + by apply string_get_not_number in Hget.
    + destruct (IH c0 p0 n v Hget) as (c1 & p1 & Hset & Hget').
      exists c, (update seg (VObj c1 p1) props). split.
      * rewrite set_segments_step, Hchild. simpl DotProp.isObj.
        cbv iota. by rewrite Hset.
      * rewrite get_segments_step. exact Hget'.
Qed.


Lemma set_found (c : objclass) props (key : string) (n : number)
  (v : value) :
  DotProp.get (VObj c props) (VStr key) = VNum n ->
  exists c' props',
    DotProp.set (VObj c props) (VStr key) v = Return (VObj c' props')
    /\ DotProp.get (VObj c' props') (VStr key) = v.
Proof.
  unfold DotProp.set, DotProp.get. simpl DotProp.isObj. cbv iota.
  apply get_set_found.
Qed.

Lemma split_singleton p : forall x, DotProp.split p = [x] -> x = p.
Proof.
  induction p as [|c p IH]; intros x; simpl.
  - by intros [= <-].
  - destruct (Ascii.eqb c ".").
    + intros [= _ Hs]. by apply split_nonempty in Hs.
    + destruct (DotProp.split p) as [|h t] eqn:Hs;
        [by apply split_nonempty in Hs|].
      intros [= <- ->]. f_equal. by apply IH.
Qed.

Lemma has_dot_app p p' : has_dot (p ++ "." ++ p') = true.
Proof.
  induction p as [|c p IH]; simpl; [done|].
  change (has_dot (p ++ String "." p')) with (has_dot (p ++ "." ++ p')).
  rewrite IH. apply orb_true_r.
Qed.

Lemma join_escaped_head rest : forall p,
  has_dot p = true ->
  exists h t, DotProp.join_escaped p rest = h :: t /\ has_dot h = true.
Proof.
  induction rest as [|next rest IH]; intros p Hp; simpl; [eauto|].
  destruct (DotProp.ends_with_backslash p); [|eauto].
  apply IH, has_dot_app.
Qed.

Lemma join_escaped_singleton p next rest x :
  DotProp.join_escaped p (next :: rest) = [x] -> has_dot x = true.
Proof.
  simpl. destruct (DotProp.ends_with_backslash p).
  - intros Hj.
    destruct (join_escaped_head rest (DotProp.slice_init p ++ "." ++ next))
      as (h & t & Hht & Hh); [apply has_dot_app|].
    rewrite Hj in Hht. by injection Hht as <- _.
  - intros [= _ Hj]. by apply join_escaped_nonempty in Hj.
Qed.

(** The only key whose path is the single segment ["_id"] is ["_id"]. *)
Lemma segments_of_id k : DotProp.getPathSegments k = ["_id"] -> k = "_id".
Proof.
  unfold DotProp.getPathSegments.
  destruct (DotProp.split k) as [|p [|next rest]] eqn:Hs.
  - by apply split_nonempty in Hs.
  - simpl. intros [= ->]. symmetry. by apply split_singleton.
  - intros Hj. by apply join_escaped_singleton in Hj.
Qed.

End DotPaths.

Local Open Scope list_scope.

Section TerminalClaims.

Context {B : Type}.
Variable plug : Plug B.
Implicit Types (s : state B) (q : builder) (this : loc).

Lemma db_call_keeps db c s l q :
  keeps_builders plug ->
  heap s !! l = Some (Builder q) ->
  heap (db_call plug db c s).2 !! l = Some (Builder q).
Proof.
  intros Hplug Hl. destruct db as [d|]; simpl; [|done].
  specialize (Hplug d c (heap s) (backend s) l q Hl).
  by destruct (plug d c (heap s) (backend s)) as [[r h] b].
Qed.

Lemma db_call_calls d c s :
  calls (db_call plug (Some d) c s).2 = calls s ++ [(d, c)].
Proof.
  simpl. by destruct (plug d c (heap s) (backend s)) as [[r h] b].
Qed.

Lemma run_unfold s this q t :
  heap s !! this = Some (Builder q) ->
  (DbQuery.run plug this t s).2
  = (db_call plug (_db q) (request t (_Model q) this) s).2.
Proof.
  intros Hq.
  destruct t; simpl; unfold DbQuery.find, DbQuery.findOne, DbQuery.count,
    DbQuery.remove, bind, this_builder; rewrite Hq; try done.
  by destruct (db_call plug _ _ s) as [[v|e] s'].
Qed.

(** C7: with a plug that does not write to builders, each terminal action
    ([find], [findOne], [count], [remove]) leaves the receiver, and with it
    its operation list, as it was, whether the plug answers or fails.  A
    second terminal action on the same builder therefore finds the same
    operation list, and the two requests logged carry the same entity type
    and the same builder. *)
Theorem terminals_keep_the_operation_list
  s this q (t1 t2 : DbQuery.terminal) :
  keeps_builders plug ->
  heap s !! this = Some (Builder q) ->
  let s1 := (DbQuery.run plug this t1 s).2 in
  let s2 := (DbQuery.run plug this t2 s1).2 in
  heap s1 !! this = Some (Builder q)
  /\ heap s2 !! this = Some (Builder q)
  /\ (forall d, _db q = Some d ->
        calls s1 = calls s ++ [(d, request t1 (_Model q) this)]
        /\ calls s2 = calls s1 ++ [(d, request t2 (_Model q) this)]).
Proof.
  intros Hplug Hq s1 s2.
  assert (heap s1 !! this = Some (Builder q)) as Hq1.
  { subst s1. rewrite (run_unfold _ _ _ _ Hq). by apply db_call_keeps. }
  assert (heap s2 !! this = Some (Builder q)) as Hq2.
  { subst s2. rewrite (run_unfold _ _ _ _ Hq1). by apply db_call_keeps. }
  split; [done|]. split; [done|]. intros d Hd. split.
  - subst s1. rewrite (run_unfold _ _ _ _ Hq), Hd. apply db_call_calls.
  - subst s2. rewrite (run_unfold _ _ _ _ Hq1), Hd. apply db_call_calls.
Qed.

(** C3, as the code behaves: on an entity without identity [remove] fails
    with the error "Model not stored in database" and sends no request;
    on an entity with an identity it nulls the identity first and then
    requests the deletion of [null], not of the identity that the entity
    had before the call. *)
Theorem remove_requests_deletion_of_null s this (m : entity) :
  heap s !! this = Some (Entity m) ->
  (eq_null (__id m) = true ->
     DbModel.remove plug this s
     = (Throw (Error "Model not stored in database"), s))
  /\ (eq_null (__id m) = false ->
        forall d, __db (constructor m) = Some d ->
          calls (DbModel.remove plug this s).2
          = calls s ++ [(d, removeById (constructor m) VNull)]).
Proof.
  intros Hm. split.
  - intros Hid. unfold DbModel.remove, bind, this_entity.
    by rewrite Hm, Hid.
  - intros Hid d Hd. unfold DbModel.remove.
    unfold bind at 1, this_entity at 1. rewrite Hm, Hid.
    unfold bind at 1, write at 1.
    unfold bind at 1, this_entity at 1. simpl heap.
    rewrite lookup_insert_eq. simpl constructor. simpl __id. rewrite Hd.
    unfold bind.
    match goal with
    | |- context [db_call plug (Some d) ?c ?s0] =>
        pose proof (db_call_calls d c s0) as Hc;
        destruct (db_call plug (Some d) c s0) as [[v|e] s']
    end; exact Hc.
Qed.

End TerminalClaims.

Section EntityClaims.

Context {B : Type}.
Variable StringToNumber : string -> number.
Implicit Types (s : state B) (m : entity) (this : loc).


(** C10: [get ("_id")] returns the identity of the entity, whatever its
    data holds; every key that addresses the top-level field ["_id"] of
    the data is that same key and is answered with the identity, so the
    field is out of reach of [get]; [get ()] and [get ("")] return a
    mapping that still has the field with its value. *)
Theorem get_id_returns_identity_and_hides_data_field s this m :
  heap s !! this = Some (Entity m) ->
  DbModel.get this (VStr "_id") s = (Return (__id m), s)
  /\ (forall key, DotProp.getPathSegments key = ["_id"] ->
        DbModel.get this (VStr key) s = (Return (__id m), s))
  /\ (forall c props v,
        __data m = VObj c props -> assoc "_id" props = Some v ->
        exists full,
          DbModel.get this VUndefined s = (Return (VObj Plain full), s)
          /\ DbModel.get this (VStr "") s = (Return (VObj Plain full), s)
          /\ assoc "_id" full = Some v).
Proof.
  intros Hm.
  assert (DbModel.get this (VStr "_id") s = (Return (__id m), s)) as Hid.
  { unfold DbModel.get, bind, lift, this_entity; simpl. by rewrite Hm. }
  split; [done|]. split.
  - intros key Hkey. by rewrite (segments_of_id _ Hkey).
  - intros c props v Hdata Hv.
    exists (List.filter (fun kv => negb (String.eqb "__proto__" (fst kv)))
              props).
    assert (assoc "_id"
              (List.filter (fun kv => negb (String.eqb "__proto__" (fst kv)))
                 props) = Some v) as Hfull
        by by rewrite assoc_filter_ne.
    unfold DbModel.get, bind, lift, this_entity; simpl.
    rewrite Hm, Hdata. split; [done|]. split; [done|]. exact Hfull.
Qed.

End EntityClaims.

(** ** The properties at work on the example world *)

Lemma quiet_plug_keeps_builders : keeps_builders quiet_plug.
Proof. intros db c h b l q Hl. exact Hl. Qed.

(** [lte ("a", 100)] on the example builder, and [Model.lte ("a", 100)]. *)
Lemma lte_on_the_example_builder :
  heap a_state !! 0%nat = Some (Builder a_builder)
  /\ DbQuery.lte 0%nat (VStr "a") (VNum (Num 100)) a_state
     = (Throw (ReferenceError "max is not defined"), a_state)
  /\ exists l,
      heap a_state !! l = None
      /\ DbModel.Static.lte quiet_plug Model (VStr "a") (VNum (Num 100))
           a_state
         = (Return (Ref l),
            store_at a_state l
              (Builder (mkBuilder Model (__db Model)
                          [OpGt (VNum (Num 100)) (VStr "a")])))
      /\ map type [OpGt (VNum (Num 100)) (VStr "a")] = ["gt"].
Proof.
  split; [reflexivity|].
  apply (lte_raises_and_static_lte_pushes_gt quiet_plug a_state 0%nat
           a_builder Model (VStr "a") (VNum (Num 100))).
  reflexivity.
Defined.

(** [remove ()] on the saved and on the unsaved example entity. *)
Lemma remove_on_the_example_entities :
  calls (DbModel.remove quiet_plug 1%nat a_state).2
  = [("db", removeById Model VNull)]
  /\ DbModel.remove quiet_plug 2%nat a_state
     = (Throw (Error "Model not stored in database"), a_state).
Proof.
  split.
  - apply (proj2 (remove_requests_deletion_of_null quiet_plug a_state 1%nat
                    an_entity eq_refl) eq_refl "db" eq_refl).
  - apply (proj1 (remove_requests_deletion_of_null quiet_plug a_state 2%nat
                    unsaved_entity eq_refl) eq_refl).
Defined.

(** C5 as stated fails: the direction ["ASC"] is a spelling of "asc" up to
    letter case, yet [sort ("a", "ASC")] raises the error and appends
    nothing instead of appending an ascending sort node. *)
Lemma sort_rejects_upper_case_ASC :
  DbQuery.sort 0%nat (VStr "a") (VStr "ASC") a_state
  = (Throw (Error "Invalid sort value"), a_state)
  /\ DbQuery.sort 0%nat (VStr "a") (VStr "ASC") a_state
     <> (Return (Ref 0%nat),
         store_at a_state 0%nat
           (Builder (appended a_builder [OpSort (VStr "a") false]))).
Proof. split; [reflexivity | discriminate]. Qed.

(** [sort] with ["asc"], without direction, with ["Desc"], with [null]
    and with [{toString: 1}]. *)
Lemma sort_on_the_example_builder :
  heap a_state !! 0%nat = Some (Builder a_builder)
  /\ DbQuery.sort 0%nat (VStr "a") (VStr "asc") a_state
     = (Return (Ref 0%nat),
        store_at a_state 0%nat
          (Builder (appended a_builder [OpSort (VStr "a") false])))
  /\ DbQuery.sort 0%nat (VStr "a") VUndefined a_state
     = (Return (Ref 0%nat),
        store_at a_state 0%nat
          (Builder (appended a_builder [OpSort (VStr "a") true])))
  /\ DbQuery.sort 0%nat (VStr "a") (VStr "Desc") a_state
     = (Throw (Error "Invalid sort value"), a_state)
  /\ DbQuery.sort 0%nat (VStr "a") VNull a_state
     = (Throw (TypeError "Cannot read properties of null"), a_state)
  /\ DbQuery.sort 0%nat (VStr "a") odd_direction a_state
     = (Throw (TypeError "toString is not a function"), a_state).
Proof.
  split; [reflexivity|]. split; [|split; [|split; [|split]]].
  - apply (proj1 (sort_direction_is_exact a_state 0%nat a_builder (VStr "a")
                    (VStr "asc") eq_refl)).
    simpl; auto.
  - apply (proj1 (proj2 (sort_direction_is_exact a_state 0%nat a_builder
                           (VStr "a") VUndefined eq_refl))).
    simpl; auto.
  - apply (proj1 (proj2 (proj2 (sort_direction_is_exact a_state 0%nat
                                  a_builder (VStr "a") (VStr "Desc")
                                  eq_refl))) "Desc").
    + discriminate.
    + reflexivity.
    + simpl. intros [H|[H|[H|[H|[H|[H|[]]]]]]]; discriminate H.
  - apply (proj1 (proj2 (proj2 (proj2 (sort_direction_is_exact a_state 0%nat
                                         a_builder (VStr "a") VNull
                                         eq_refl))))).
    reflexivity.
  - apply (proj2 (proj2 (proj2 (proj2 (sort_direction_is_exact a_state 0%nat
                                         a_builder (VStr "a") odd_direction
                                         eq_refl))))).
    + discriminate.
    + reflexivity.
Defined.

(** C6 as stated fails: [where ({a: 1}, 5)], a mapping together with a
    non-null value, returns the builder and appends a whereEquals node. *)
Lemma where_accepts_mapping_with_value :
  DbQuery.where_ 0%nat (obj [("a", VNum (Num 1))]) (VNum (Num 5)) a_state
  = (Return (Ref 0%nat),
     store_at a_state 0%nat
       (Builder
          (appended a_builder
             [OpWhereEquals (obj [("a", VNum (Num 1))]) (VNum (Num 5))])))
  /\ (forall e,
        DbQuery.where_ 0%nat (obj [("a", VNum (Num 1))]) (VNum (Num 5))
          a_state
        <> (Throw e, a_state)).
Proof. split; [reflexivity | discriminate]. Qed.

(** [where ({a: 1})], [where ({a: 1}, 5)] and [where ("a", 1)]. *)
Lemma where_on_the_example_builder :
  heap a_state !! 0%nat = Some (Builder a_builder)
  /\ DbQuery.where_ 0%nat (obj [("a", VNum (Num 1))]) VUndefined a_state
     = (Return (Ref 0%nat),
        store_at a_state 0%nat
          (Builder (appended a_builder
                      [OpFilter (obj [("a", VNum (Num 1))])])))
  /\ DbQuery.where_ 0%nat (obj [("a", VNum (Num 1))]) (VNum (Num 5)) a_state
     = (Return (Ref 0%nat),
        store_at a_state 0%nat
          (Builder
             (appended a_builder
                [OpWhereEquals (obj [("a", VNum (Num 1))]) (VNum (Num 5))])))
  /\ DbQuery.where_ 0%nat (VStr "a") (VNum (Num 1)) a_state
     = (Return (Ref 0%nat),
        store_at a_state 0%nat
          (Builder (appended a_builder
                      [OpWhereEquals (VStr "a") (VNum (Num 1))]))).
Proof.
  split; [reflexivity|]. split; [|split].
  - apply (proj1 (where_appends_and_never_rejects a_state 0%nat a_builder
                    (obj [("a", VNum (Num 1))]) VUndefined eq_refl));
      reflexivity.
  - apply (proj1 (proj2 (where_appends_and_never_rejects a_state 0%nat
                           a_builder (obj [("a", VNum (Num 1))])
                           (VNum (Num 5)) eq_refl)));
      reflexivity.
  - apply (proj2 (proj2 (where_appends_and_never_rejects a_state 0%nat
                           a_builder (VStr "a") (VNum (Num 1)) eq_refl)));
      reflexivity.
Defined.

(** [find ()] and then [count ()] on the example builder. *)
Lemma find_then_count_on_the_example_builder :
  keeps_builders quiet_plug
  /\ heap a_state !! 0%nat = Some (Builder a_builder)
  /\ let s1 := (DbQuery.run quiet_plug 0%nat DbQuery.Find a_state).2 in
     let s2 := (DbQuery.run quiet_plug 0%nat DbQuery.Count s1).2 in
     heap s1 !! 0%nat = Some (Builder a_builder)
     /\ heap s2 !! 0%nat = Some (Builder a_builder)
     /\ (forall d, _db a_builder = Some d ->
           calls s1
           = calls a_state ++ [(d, request DbQuery.Find (_Model a_builder) 0%nat)]
           /\ calls s2
              = calls s1
                ++ [(d, request DbQuery.Count (_Model a_builder) 0%nat)]).
Proof.
  split; [exact quiet_plug_keeps_builders|]. split; [reflexivity|].
  apply (terminals_keep_the_operation_list quiet_plug a_state 0%nat a_builder
           DbQuery.Find DbQuery.Count quiet_plug_keeps_builders).
  reflexivity.
Defined.

(** [sort ("a", "asc")] as a chain call on the example builder. *)
Lemma chain_on_the_example_builder :
  heap a_state !! 0%nat = Some (Builder a_builder)
  /\ exists new,
      length new <= 1
      /\ extends_by a_state
           (DbQuery.chain 0%nat (DbQuery.CallSort (VStr "a") (VStr "asc"))
              a_state).2 0%nat a_builder new
      /\ (forall r,
            (DbQuery.chain 0%nat (DbQuery.CallSort (VStr "a") (VStr "asc"))
               a_state).1 = Return r -> r = Ref 0%nat).
Proof.
  split; [reflexivity|].
  apply (chain_is_append_only a_state 0%nat a_builder
           (DbQuery.CallSort (VStr "a") (VStr "asc"))).
  reflexivity.
Defined.



(** [get ("_id")], [get ()] and [get ("")] on the saved example entity,
    whose data has a field ["_id"] holding 7. *)
Lemma get_on_the_example_entity :
  heap a_state !! 1%nat = Some (Entity an_entity)
  /\ DbModel.get 1%nat (VStr "_id") a_state = (Return (VStr "abc"), a_state)
  /\ exists full,
      DbModel.get 1%nat VUndefined a_state = (Return (VObj Plain full), a_state)
      /\ DbModel.get 1%nat (VStr "") a_state
         = (Return (VObj Plain full), a_state)
      /\ assoc "_id" full = Some (VNum (Num 7)).
Proof.
  split; [reflexivity|].
  pose proof (get_id_returns_identity_and_hides_data_field a_state 1%nat
                an_entity eq_refl) as (Hid & _ & Hfull).
  split; [exact Hid|].
  apply (Hfull Plain [("_id", VNum (Num 7)); ("a", VNum (Num 1))]
           (VNum (Num 7)) eq_refl eq_refl).
Defined.

(** ** Chains, query constructors and terminal actions *)

Section ChainFacts.

Context {B : Type}.
Variable plug : Plug B.
Implicit Types (s : state B) (q : builder) (this : loc).

Lemma spelling_found str a b c :
  String.eqb str a || String.eqb str b || String.eqb str c = true ->
  In str [a; b; c].
Proof.
  intros H. apply orb_prop in H as [H|H]; [apply orb_prop in H as [H|H]|];
    apply String.eqb_eq in H; subst; simpl; auto.
Qed.

Lemma spelling_missed str a b c :
  String.eqb str a || String.eqb str b || String.eqb str c = false ->
  ~ In str [a; b; c].
Proof.
  intros H Hin. apply Bool.not_true_iff_false in H. apply H.
  simpl in Hin. destruct Hin as [<-|[<-|[<-|[]]]];
    rewrite String.eqb_refl; by rewrite ?orb_true_r.
Qed.

(** One chain call either pushes its node and returns the receiver, or
    fails and leaves the state alone. *)
Lemma chain_step s this q (c : DbQuery.chain_call) :
  heap s !! this = Some (Builder q) ->
  (exists op,
      pushes c op
      /\ DbQuery.chain this c s
         = (Return (Ref this), store_at s this (Builder (appended q [op]))))
  \/ (exists e, DbQuery.chain this c s = (Throw e, s)).
Proof.
  intros Hq.
  destruct c as [amt|amt|key direction|key val|key m|key m|key m|key m];
    simpl DbQuery.chain.
  - left. eexists. split; [constructor | by apply limit_spec].
  - left. eexists. split; [constructor | by apply skip_spec].
  - rewrite sort_unfold.
    destruct (toString (default_arg direction (VStr "desc")))
      as [str|e] eqn:Hstr; [|right; eauto].
    destruct (String.eqb str "1" || String.eqb str "asc"
              || String.eqb str "ascending") eqn:Hasc.
    { apply spelling_found in Hasc. left. eexists. split.
      - by eapply pushes_sort_ascending.
      - by apply sort_body_ascending. }
    destruct (String.eqb str "-1" || String.eqb str "desc"
              || String.eqb str "descending") eqn:Hdesc.
    { apply spelling_found in Hdesc. left. eexists. split.
      - by eapply pushes_sort_descending.
      - by apply sort_body_descending. }
    right. eexists. apply sort_body_other.
    apply spelling_missed in Hasc, Hdesc.
    intros Hin. apply in_app_or in Hin. tauto.
  - left. destruct (instanceof_Object key && eq_null val) eqn:Hc.
    + apply andb_prop in Hc as [Hk Hv].
      eexists. split; [by constructor | by apply where_filter_spec].
    + eexists. split; [by constructor | by apply where_equals_spec].
  - left. eexists. split; [constructor | by apply gt_spec].
  - left. eexists. split; [constructor | by apply lt_spec].
  - left. eexists. split; [constructor | by apply gte_spec].
  - right. eexists. by apply lte_spec with q.
Qed.



Lemma static_chain_unfold (C : ModelClass) (c : DbQuery.chain_call) s :
  is_lte c = false ->
  static_chain plug C c s
  = DbQuery.chain (fresh (dom (heap s))) c
      (store_at s (fresh (dom (heap s))) (Builder (mkBuilder C (__db C) []))).
Proof. intros Hc. by destruct c. Qed.

Lemma store_at_other s l o l' :
  l' <> l -> heap (store_at s l o) !! l' = heap s !! l'.
Proof. intros Hne. simpl. by rewrite lookup_insert_ne. Qed.

(** Whatever a static query constructor does, it does to one object, at
    a location that was not in use. *)
Lemma static_chain_fresh (C : ModelClass) (c : DbQuery.chain_call) s :
  exists o,
    (static_chain plug C c s).2 = store_at s (fresh (dom (heap s))) o
    /\ (forall r, (static_chain plug C c s).1 = Return r ->
          r = Ref (fresh (dom (heap s)))).
Proof.
  destruct (is_lte c) eqn:Hc.
  - destruct c; try discriminate. simpl static_chain.
    rewrite static_lte_spec. simpl. eexists. split; [done|]. congruence.
  - rewrite (static_chain_unfold _ _ _ Hc).
    set (l := fresh (dom (heap s))).
    set (s0 := store_at s l (Builder (mkBuilder C (__db C) []))).
    destruct (chain_step s0 l (mkBuilder C (__db C) []) c
                (store_at_lookup _ _ _)) as [(op & _ & ->)|(e & ->)]; simpl.
    + eexists. split; [apply store_at_twice|]. congruence.
    + eexists. split; [done|]. congruence.
Qed.

End ChainFacts.

Section ChainProperties.

Context {B : Type}.
Variable plug : Plug B.
Implicit Types (s : state B) (q : builder) (this : loc).


(** X2: a static query constructor other than [lte] works on a builder of
    its own: the builder sits at a location that was not in use, is bound
    to the entity type and its Db API, and nothing else in the state
    changes.  When the call returns, it returns that builder, which holds
    exactly the node of the call; when it fails (a direction that [sort]
    rejects), the builder stays behind empty. *)
Theorem static_constructor_builds_fresh_builder
  (C : ModelClass) (c : DbQuery.chain_call) s :
  is_lte c = false ->
  exists l,
    heap s !! l = None
    /\ ((exists node,
           pushes c node
           /\ static_chain plug C c s
              = (Return (Ref l),
                 store_at s l (Builder (mkBuilder C (__db C) [node]))))
        \/ (exists e,
              static_chain plug C c s
              = (Throw e, store_at s l (Builder (mkBuilder C (__db C) []))))).
Proof.
  intros Hc. exists (fresh (dom (heap s))). split; [apply fresh_unused|].
  rewrite (static_chain_unfold _ _ _ _ Hc).
  destruct (chain_step
              (store_at s (fresh (dom (heap s)))
                 (Builder (mkBuilder C (__db C) [])))
              (fresh (dom (heap s))) (mkBuilder C (__db C) []) c
              (store_at_lookup _ _ _)) as [(op & Hop & ->)|(e & ->)].
  - left. exists op. split; [done|]. by rewrite store_at_twice.
  - right. by exists e.
Qed.

(** X3: two query constructors never share a builder: the builder that a
    second constructor returns differs from the one that a first returned,
    and the second call leaves the first builder as it was. *)
Theorem query_constructors_are_independent
  (C1 C2 : ModelClass) (c1 c2 : DbQuery.chain_call) s s1 s2 l1 l2 :
  static_chain plug C1 c1 s = (Return (Ref l1), s1) ->
  static_chain plug C2 c2 s1 = (Return (Ref l2), s2) ->
  l1 <> l2 /\ is_Some (heap s1 !! l1) /\ heap s2 !! l1 = heap s1 !! l1.
Proof.
  intros H1 H2.
  destruct (static_chain_fresh plug C1 c1 s) as (o1 & Hs1 & Hr1).
  destruct (static_chain_fresh plug C2 c2 s1) as (o2 & Hs2 & Hr2).
  rewrite H1 in Hs1, Hr1. rewrite H2 in Hs2, Hr2. simpl in *.
  specialize (Hr1 _ eq_refl). specialize (Hr2 _ eq_refl).
  injection Hr1 as ->. injection Hr2 as ->. subst s1.
  assert (is_Some (heap (store_at s (fresh (dom (heap s))) o1)
                     !! fresh (dom (heap s)))) as Hin.
  { rewrite store_at_lookup. eauto. }
  assert (fresh (dom (heap s))
          <> fresh (dom (heap (store_at s (fresh (dom (heap s))) o1))))
    as Hne.
  { intros Heq.
    pose proof (fresh_unused (store_at s (fresh (dom (heap s))) o1)) as Hf.
    rewrite <- Heq in Hf. by rewrite store_at_lookup in Hf. }
  split; [done|]. split; [done|].
  subst s2. by apply store_at_other.
Qed.

End ChainProperties.

Section TerminalProperties.

Context {B : Type}.
Variable plug : Plug B.
Implicit Types (s : state B) (q : builder) (this : loc).

Lemma run_spec s this q (t : DbQuery.terminal) :
  heap s !! this = Some (Builder q) ->
  DbQuery.run plug this t s
  = match db_call plug (_db q) (request t (_Model q) this) s with
    | (Return v, s') => (Return (answer_of t v), s')
    | (Throw e, s') => (Throw e, s')
    end.
Proof.
  intros Hq.
  destruct t; simpl; unfold DbQuery.find, DbQuery.findOne, DbQuery.count,
    DbQuery.remove, bind, this_builder; rewrite Hq;
    by destruct (db_call plug _ _ s) as [[v|e] s'].
Qed.

(** X4: a terminal action on a builder sends exactly one request, which
    names the entity type and the builder, and ends in the state that the
    plug leaves.  [find], [findOne] and [count] return the answer of the
    plug as it is and [remove] returns [undefined]; a failure of the plug
    comes out unchanged.  On a builder without Db API the action fails
    with a TypeError before any request. *)
Theorem terminal_sends_one_request s this q (t : DbQuery.terminal) :
  heap s !! this = Some (Builder q) ->
  (forall d, _db q = Some d ->
     let reply := plug d (request t (_Model q) this) (heap s) (backend s) in
     DbQuery.run plug this t s
     = (match reply.1.1 with
        | Return v => Return (answer_of t v)
        | Throw e => Throw e
        end,
        mkState reply.1.2 reply.2
          (calls s ++ [(d, request t (_Model q) this)])))
  /\ (_db q = None ->
        DbQuery.run plug this t s
        = (Throw (TypeError "Cannot read properties of undefined"), s)).
Proof.
  intros Hq. split.
  - intros d Hd reply. subst reply. rewrite (run_spec _ _ _ _ Hq), Hd.
    simpl. by destruct (plug d _ (heap s) (backend s)) as [[[v|e] h] b].
  - intros Hd. by rewrite (run_spec _ _ _ _ Hq), Hd.
Qed.

(** X5: the static [find], [findOne], [count] and [remove] of an entity
    type run the terminal action of the same name on a builder of their
    own, at a location that was not in use, whose list is one node made
    from the filter: a filter node for a mapping, a whereEquals node with
    value [null] for anything else.  An omitted filter stands for the
    empty mapping; [null] does not, it is compared as a key. *)
Theorem static_terminal_queries_fresh_builder
  (C : ModelClass) (t : DbQuery.terminal) (filter : value) s :
  let f := default_arg filter (obj []) in
  let l := fresh (dom (heap s)) in
  exists node,
    (instanceof_Object f = true -> node = OpFilter f)
    /\ (instanceof_Object f = false -> node = OpWhereEquals f VNull)
    /\ heap s !! l = None
    /\ static_terminal plug C t filter s
       = DbQuery.as_value (DbQuery.run plug l t)
           (store_at s l (Builder (mkBuilder C (__db C) [node]))).
Proof.
  intros f l.
  assert (forall name k,
            (forall r s', DbQuery.invoke plug r name [] s' = k r s') ->
            forall node,
              DbQuery.where_ l f VUndefined
                (store_at s l (Builder (mkBuilder C (__db C) [])))
              = (Return (Ref l),
                 store_at (store_at s l (Builder (mkBuilder C (__db C) [])))
                   l (Builder (appended (mkBuilder C (__db C) []) [node]))) ->
              bind (DbModel.Static.__query C)
                (fun r0 =>
                   bind (DbQuery.invoke plug r0 "where" [f])
                        (fun r1 => DbQuery.invoke plug r1 name [])) s
              = k (Ref l) (store_at s l (Builder (mkBuilder C (__db C) [node]))))
    as Hrun.
  { intros name k Hk node Hw. unfold bind at 1. rewrite query_spec.
    unfold bind at 1. fold l. simpl DbQuery.invoke at 1.
    unfold arg; simpl nth. rewrite Hw, Hk. by rewrite store_at_twice. }
  assert (exists node,
            (instanceof_Object f = true -> node = OpFilter f)
            /\ (instanceof_Object f = false -> node = OpWhereEquals f VNull)
            /\ DbQuery.where_ l f VUndefined
                 (store_at s l (Builder (mkBuilder C (__db C) [])))
               = (Return (Ref l),
                  store_at (store_at s l (Builder (mkBuilder C (__db C) [])))
                    l (Builder (appended (mkBuilder C (__db C) []) [node]))))
    as (node & Hyes & Hno & Hw).
  { destruct (instanceof_Object f) eqn:Hf.
    - exists (OpFilter f). split; [done|]. split; [done|].
      apply where_filter_spec; [apply store_at_lookup|done|done].
    - exists (OpWhereEquals f VNull). split; [done|]. split; [done|].
      apply (where_equals_spec _ _ _ f VUndefined); [apply store_at_lookup|].
      by rewrite Hf. }
  exists node. split; [done|]. split; [done|].
  split; [apply fresh_unused|].
  destruct t; simpl static_terminal;
    unfold DbModel.Static.find, DbModel.Static.findOne,
      DbModel.Static.count, DbModel.Static.remove; fold f;
    by rewrite (Hrun _ _ (fun _ _ => eq_refl) node Hw).
Qed.

Lemma remove_spec s this (m : entity) :
  heap s !! this = Some (Entity m) ->
  eq_null (__id m) = false ->
  (DbModel.remove plug this s).2
  = (db_call plug (__db (constructor m)) (removeById (constructor m) VNull)
       (store_at s this
          (Entity (mkEntity (constructor m) (__data m) VNull)))).2.
Proof.
  intros Hm Hid. unfold DbModel.remove.
  unfold bind at 1, this_entity at 1. rewrite Hm, Hid.
  unfold bind at 1, write at 1.
  unfold bind at 1, this_entity at 1. simpl heap.
  rewrite lookup_insert_eq. simpl constructor. simpl __id.
  unfold bind. unfold store_at.
  by destruct (db_call plug _ _ _) as [[v|e] s'].
Qed.

Lemma db_call_keeps_entity db c s l (m : entity) :
  keeps_entities plug ->
  heap s !! l = Some (Entity m) ->
  heap (db_call plug db c s).2 !! l = Some (Entity m).
Proof.
  intros Hplug Hl. destruct db as [d|]; simpl; [|done].
  specialize (Hplug d c (heap s) (backend s) l m Hl).
  by destruct (plug d c (heap s) (backend s)) as [[r h] b].
Qed.

(** X6: with a plug that does not write to entities, [remove] on a saved
    entity leaves it with its data and without identity, whether the plug
    deleted anything or failed; a second [remove] then fails with the
    error "Model not stored in database" and changes nothing. *)
Theorem remove_cannot_be_repeated s this (m : entity) :
  keeps_entities plug ->
  heap s !! this = Some (Entity m) ->
  eq_null (__id m) = false ->
  let s1 := (DbModel.remove plug this s).2 in
  heap s1 !! this
  = Some (Entity (mkEntity (constructor m) (__data m) VNull))
  /\ DbModel.remove plug this s1
     = (Throw (Error "Model not stored in database"), s1).
Proof.
  intros Hplug Hm Hid s1.
  assert (heap s1 !! this
          = Some (Entity (mkEntity (constructor m) (__data m) VNull))) as Hm1.
  { subst s1. rewrite (remove_spec _ _ _ Hm Hid).
    apply db_call_keeps_entity; [done | apply store_at_lookup]. }
  split; [done|].
  unfold DbModel.remove, bind, this_entity. by rewrite Hm1.
Qed.

End TerminalProperties.

(** ** The entity: reading, writing and removing fields *)

Section EntityFacts.

Context {B : Type}.
Implicit Types (s : state B) (m : entity) (this : loc).

(** The test [key === "_id"]. *)
Lemma id_test {A : Type} (x y : A) (k : string) :
  match k with "_id" => x | _ => y end
  = if String.eqb k "_id" then x else y.
Proof.
  destruct k as [|a1 k]; [done|].
  destruct a1 as [[] [] [] [] [] [] [] []]; try reflexivity.
  destruct k as [|a2 k]; [done|].
  destruct a2 as [[] [] [] [] [] [] [] []]; try reflexivity.
  destruct k as [|a3 k]; [done|].
  destruct a3 as [[] [] [] [] [] [] [] []]; try reflexivity.
  by destruct k.
Qed.

Lemma get_spec s this m (key : string) :
  heap s !! this = Some (Entity m) ->
  key <> "" -> key <> "_id" ->
  DbModel.get this (VStr key) s
  = (Return (DotProp.get (__data m) (VStr key)), s).
Proof.
  intros Hm Hne Hid. unfold DbModel.get, bind, lift, this_entity; simpl.
  rewrite Hm.
  assert (Nat.eqb (String.length key) 0 = false) as ->
      by by destruct key.
  rewrite (id_test (A := M B value)).
  apply String.eqb_neq in Hid. by rewrite Hid.
Qed.

Lemma get_all_spec s this m :
  heap s !! this = Some (Entity m) ->
  DbModel.get this VUndefined s
  = (Return (Object_assign_empty (__data m)), s).
Proof.
  intros Hm. unfold DbModel.get, bind, lift, this_entity; simpl.
  by rewrite Hm.
Qed.

Lemma set_path_spec s this m (key : string) (v data' : value) :
  heap s !! this = Some (Entity m) ->
  DotProp.set (__data m) (VStr key) (default_arg v VNull) = Return data' ->
  DbModel.set this (VStr key) v s
  = (Return VUndefined,
     store_at s this (Entity (mkEntity (constructor m) data' (__id m)))).
Proof.
  intros Hm Hset. unfold DbModel.set. cbn [instanceof_Object andb].
  unfold bind, this_entity, write, lift. by rewrite Hm, Hset.
Qed.

Lemma unset_path_spec s this m (key : string) :
  heap s !! this = Some (Entity m) ->
  DbModel.unset this (VStr key) s
  = match DotProp.delete (__data m) (VStr key) with
    | Return data' =>
        (Return VUndefined,
         store_at s this (Entity (mkEntity (constructor m) data' (__id m))))
    | Throw e => (Throw e, s)
    end.
Proof.
  intros Hm. unfold DbModel.unset. cbn [default_arg eq_null].
  unfold bind, this_entity, write, lift.
  rewrite Hm. by destruct (DotProp.delete (__data m) (VStr key)).
Qed.

Lemma get_of_empty (key : string) :
  DotProp.get (obj []) (VStr key) = VUndefined.
Proof.
  unfold DotProp.get; simpl.
  pose proof (getPathSegments_nonempty key) as Hne.
  by destruct (DotProp.getPathSegments key).
Qed.

Lemma split_no_dot (k : string) : has_dot k = false -> DotProp.split k = [k].
Proof.
  induction k as [|c k IH]; simpl; [done|].
  intros H. apply orb_false_elim in H as [Hc Hk].
  rewrite Hc, (IH Hk). done.
Qed.

Lemma segments_no_dot (k : string) :
  has_dot k = false -> DotProp.getPathSegments k = [k].
Proof.
  intros Hk. unfold DotProp.getPathSegments. by rewrite split_no_dot.
Qed.

(** The properties of a mapping after a shallow merge. *)
Lemma merge_other (k : string) (u : list (string * value)) : forall props,
  ~ In k (map fst u) ->
  assoc k (fold_left (fun acc kv => update (fst kv) (snd kv) acc) u props)
  = assoc k props.
Proof.
  induction u as [|[k1 v1] u IH]; intros props Hin; simpl; [done|].
  simpl in Hin. rewrite IH by tauto.
  apply assoc_update_ne. intros ->. tauto.
Qed.

Lemma merge_written (k : string) (v : value) (u : list (string * value)) :
  forall props,
  NoDup (map fst u) ->
  assoc k u = Some v ->
  assoc k (fold_left (fun acc kv => update (fst kv) (snd kv) acc) u props)
  = Some v.
Proof.
  induction u as [|[k1 v1] u IH]; intros props Hnd Hk; simpl in *; [done|].
  apply NoDup_cons in Hnd as [Hk1 Hnd].
  destruct (String.eqb k k1) eqn:Heq.
  - apply String.eqb_eq in Heq as ->. injection Hk as ->.
    rewrite merge_other; [apply assoc_update|].
    by rewrite <- list_elem_of_In.
  - by apply IH.
Qed.

End EntityFacts.

Section EntityProperties.

Context {B : Type}.
Variable StringToNumber : string -> number.
Variable plug : Plug B.
Implicit Types (s : state B) (m : entity) (this : loc).

Lemma get_id_spec s this m :
  heap s !! this = Some (Entity m) ->
  DbModel.get this (VStr "_id") s = (Return (__id m), s).
Proof.
  intros Hm. unfold DbModel.get, bind, lift, this_entity; simpl.
  by rewrite Hm.
Qed.

Lemma store_at_id s l o : heap s !! l = Some o -> store_at s l o = s.
Proof.
  intros Hl. destruct s as [h b c]; unfold store_at; simpl in *.
  by rewrite insert_id.
Qed.

Lemma increment_spec s this m (key amt sum data' : value) :
  heap s !! this = Some (Entity m) ->
  add StringToNumber (DotProp.get (__data m) key) (amount amt) = Return sum ->
  DotProp.set (__data m) key sum = Return data' ->
  DbModel.increment StringToNumber this key amt s
  = (Return VUndefined,
     store_at s this (Entity (mkEntity (constructor m) data' (__id m)))).
Proof.
  intros Hm Hsum Hset.
  unfold DbModel.increment, bind, this_entity, write, lift.
  unfold amount in Hsum. by rewrite Hm, Hsum, Hset.
Qed.

Lemma decrement_spec s this m (key amt difference data' : value) :
  heap s !! this = Some (Entity m) ->
  sub StringToNumber (DotProp.get (__data m) key) (amount amt)
  = Return difference ->
  DotProp.set (__data m) key difference = Return data' ->
  DbModel.decrement StringToNumber this key amt s
  = (Return VUndefined,
     store_at s this (Entity (mkEntity (constructor m) data' (__id m)))).
Proof.
  intros Hm Hdiff Hset.
  unfold DbModel.decrement, bind, this_entity, write, lift.
  unfold amount in Hdiff. by rewrite Hm, Hdiff, Hset.
Qed.

Lemma assoc_in {A : Type} (k : string) (a : A) (l : list (string * A)) :
  assoc k l = Some a -> In k (map fst l).
Proof.
  induction l as [|[k0 a0] l IH]; simpl; [done|].
  destruct (String.eqb k k0) eqn:Hk.
  - apply String.eqb_eq in Hk. auto.
  - auto.
Qed.

Lemma special_not_proto (k : string) :
  special_key k = false -> k <> "__proto__".
Proof.
  unfold special_key. intros H ->. discriminate H.
Qed.

(** A merge without the two special names is a sequence of ordinary
    writes. *)
Lemma assign_properties_ordinary (c : objclass)
  (u : list (string * value)) : forall props,
  Forall (fun k => special_key k = false) (map fst u) ->
  assign_properties c props u
  = Return (fold_left (fun acc kv => update (fst kv) (snd kv) acc) u props).
Proof.
  induction u as [|[k v] u IH]; intros props Hall; [done|].
  simpl in Hall. apply Forall_cons in Hall as [Hk Hall].
  cbn [assign_properties fold_left fst snd].
  assert (assign_property c props k v = Return (update k v props)) as ->.
  { unfold assign_property. destruct (assoc k props); [done|].
    unfold special_key in Hk. apply orb_false_elim in Hk as [-> Hlen].
    destruct c; [done|]. by rewrite Hlen. }
  by apply IH.
Qed.


(** X8: [set ("_id", value)] does not touch the identity.  The value goes
    to the data field ["_id"], where [get ()] shows it, and [get ("_id")]
    keeps answering with the identity. *)
Theorem set_of_id_writes_the_data_only
  s this m (c : objclass) props (v : value) :
  heap s !! this = Some (Entity m) ->
  __data m = VObj c props ->
  exists s' full,
    DbModel.set this (VStr "_id") v s = (Return VUndefined, s')
    /\ DbModel.get this (VStr "_id") s' = (Return (__id m), s')
    /\ DbModel.get this VUndefined s' = (Return (VObj Plain full), s')
    /\ assoc "_id" full = Some (default_arg v VNull).
Proof.
  intros Hm Hdata.
  assert (DotProp.set (__data m) (VStr "_id") (default_arg v VNull)
          = Return (VObj c (update "_id" (default_arg v VNull) props)))
    as Hset.
  { rewrite Hdata. unfold DotProp.set. simpl.
    unfold DotProp.set_last, assign_property.
    destruct (assoc "_id" props); [done|]. by destruct c. }
  eexists. eexists.
  split; [by apply (set_path_spec _ _ _ _ _ _ Hm Hset)|]. split.
  - erewrite get_id_spec; [|apply store_at_lookup]. done.
  - split.
    + erewrite get_all_spec; [|apply store_at_lookup]. reflexivity.
    + cbn [__data own_properties].
      rewrite assoc_filter_ne by done. apply assoc_update.
Qed.

(** X9: [set (mapping)], with no or a null second argument, merges the
    mapping into the top level of the data, provided that no field of the
    mapping is named ["__proto__"] or ["length"]: afterwards [get ()]
    shows each field of the mapping with the value given there and every
    other field, apart from one named ["__proto__"], with the value it
    had; the identity stays what it was.  On an entity whose data is
    [null] the call fails with a TypeError and changes nothing. *)
Theorem set_of_mapping_merges
  s this m (cu : objclass) (u : list (string * value)) (val : value) :
  heap s !! this = Some (Entity m) ->
  eq_null val = true ->
  (forall c props, __data m = VObj c props ->
     Forall (fun k => special_key k = false) (map fst u) ->
     exists s' full,
       DbModel.set this (VObj cu u) val s = (Return VUndefined, s')
       /\ DbModel.get this VUndefined s' = (Return (VObj Plain full), s')
       /\ DbModel.get this (VStr "_id") s' = (Return (__id m), s')
       /\ (forall k v, NoDup (map fst u) -> assoc k u = Some v ->
             assoc k full = Some v)
       /\ (forall k, ~ In k (map fst u) -> k <> "__proto__" ->
             assoc k full = assoc k props))
  /\ (__data m = VNull ->
        DbModel.set this (VObj cu u) val s
        = (Throw (TypeError "Cannot convert undefined or null to object"),
           s)).
Proof.
  intros Hm Hval.
  assert (eq_null (default_arg val VNull) = true) as Hval'
      by by destruct val.
  split.
  - intros c props Hdata Hall.
    eexists. eexists. split.
    { unfold DbModel.set. rewrite Hval'. cbn [instanceof_Object andb].
      unfold bind, this_entity, lift, write. rewrite Hm, Hdata.
      unfold Object_assign. cbn [own_properties].
      rewrite (assign_properties_ordinary _ _ _ Hall). reflexivity. }
    split.
    { erewrite get_all_spec; [|apply store_at_lookup]. reflexivity. }
    split.
    { erewrite get_id_spec; [|apply store_at_lookup]. reflexivity. }
    cbn [__data own_properties]. split.
    + intros k v Hnd Hk. rewrite assoc_filter_ne.
      * by apply merge_written.
      * apply special_not_proto.
        rewrite Forall_forall in Hall. apply Hall.
        rewrite list_elem_of_In. by apply assoc_in with v.
    + intros k Hk Hproto. rewrite assoc_filter_ne by done.
      by apply merge_other.
  - intros Hdata. unfold DbModel.set. rewrite Hval'.
    cbn [instanceof_Object andb].
    unfold bind, this_entity, lift. by rewrite Hm, Hdata.
Qed.

(** X10: [unset ()], like [unset (null)], throws the whole data away:
    afterwards [get ()] returns the empty mapping and [get (key)] returns
    [undefined] for every key; the identity stays what it was. *)
Theorem unset_without_key_clears_the_data s this m (key : value) :
  heap s !! this = Some (Entity m) ->
  eq_null key = true ->
  exists s',
    DbModel.unset this key s = (Return VUndefined, s')
    /\ DbModel.get this VUndefined s' = (Return (VObj Plain []), s')
    /\ (forall k, k <> "" -> k <> "_id" ->
          DbModel.get this (VStr k) s' = (Return VUndefined, s'))
    /\ DbModel.get this (VStr "_id") s' = (Return (__id m), s').
Proof.
  intros Hm Hkey. eexists. split.
  { unfold DbModel.unset.
    assert (default_arg key VNull = VNull) as -> by by destruct key.
    simpl. unfold bind, this_entity, write. rewrite Hm. reflexivity. }
  split.
  { erewrite get_all_spec; [|apply store_at_lookup]. reflexivity. }
  split.
  - intros k Hne Hid.
    erewrite get_spec; [|apply store_at_lookup|done|done].
    cbn [__data]. by rewrite get_of_empty.
  - erewrite get_id_spec; [|apply store_at_lookup]. reflexivity.
Qed.

(** X11: on an entity whose data is a mapping, [unset (key)] with a key
    without dots removes that top-level field and no other: afterwards
    [get (key)] returns [undefined], and [get ()] shows every other
    field, apart from one named ["__proto__"], with the value it had.
    The [length] of data that is an array is excepted: it cannot be
    deleted. *)
Theorem unset_removes_a_top_level_field
  s this m (c : objclass) props (key : string) :
  heap s !! this = Some (Entity m) ->
  __data m = VObj c props ->
  has_dot key = false ->
  key <> "" -> key <> "_id" ->
  (c = Array -> key <> "length") ->
  exists s' full,
    DbModel.unset this (VStr key) s = (Return VUndefined, s')
    /\ DbModel.get this (VStr key) s' = (Return VUndefined, s')
    /\ DbModel.get this VUndefined s' = (Return (VObj Plain full), s')
    /\ (forall k, k <> key -> k <> "__proto__" ->
          assoc k full = assoc k props).
Proof.
  intros Hm Hdata Hdot Hne Hid Hlen.
  assert (exists props',
            DotProp.delete (__data m) (VStr key) = Return (VObj c props')
            /\ assoc key props' = None
            /\ (forall k, k <> key -> assoc k props' = assoc k props))
    as (props' & Hdel & Hgone & Hkept).
  { rewrite Hdata. unfold DotProp.delete; simpl.
    rewrite segments_no_dot by done. simpl. unfold DotProp.delete_last.
    destruct (assoc key props) as [w|] eqn:Hw.
    - eexists. split; [done|]. split; [apply assoc_filter_eq|].
      intros k Hk. by apply assoc_filter_ne.
    - exists props.
      assert (match c with
              | Plain => Return props
              | Array =>
                  if String.eqb key "length"
                  then Throw (TypeError "Cannot delete property 'length'")
                  else Return props
              end = Return props) as ->.
      { destruct c; [done|].
        assert (String.eqb key "length" = false) as ->; [|done].
        apply String.eqb_neq. by apply Hlen. }
      done. }
  eexists. eexists. split.
  { rewrite (unset_path_spec _ _ _ _ Hm), Hdel. reflexivity. }
  split.
  - erewrite get_spec; [|apply store_at_lookup|done|done].
    cbn [__data]. unfold DotProp.get; simpl.
    rewrite segments_no_dot by done. simpl. by rewrite Hgone.
  - split.
    + erewrite get_all_spec; [|apply store_at_lookup]. reflexivity.
    + intros k Hk Hproto. cbn [__data own_properties].
      rewrite assoc_filter_ne by done. by apply Hkept.
Qed.

Lemma unset_each_spec (keys : list value) : forall s this m,
  heap s !! this = Some (Entity m) ->
  Forall (fun k => is_string k = true) keys ->
  unset_each this keys s
  = (match (DotProp.delete_each keys (__data m)).2 with
     | Some e => Throw e
     | None => Return VUndefined
     end,
     store_at s this
       (Entity (mkEntity (constructor m)
                  (DotProp.delete_each keys (__data m)).1 (__id m)))).
Proof.
  induction keys as [|k keys IH]; intros s this m Hm Hall.
  - simpl. unfold ret. f_equal. symmetry. apply store_at_id.
    by destruct m.
  - apply Forall_cons in Hall as [Hk Hall].
    destruct k as [| | | |key|]; try discriminate.
    simpl unset_each. unfold bind.
    rewrite (unset_path_spec _ _ _ _ Hm). cbn [DotProp.delete_each].
    destruct (DotProp.delete (__data m) (VStr key)) as [data'|e].
    + erewrite IH; [|apply store_at_lookup|done].
      by rewrite store_at_twice.
    + simpl. f_equal. symmetry. apply store_at_id. by destruct m.
Qed.

(** X12: [unset] with an array of string keys does what the calls
    [unset (k)] for its elements do one after the other, in index order.
    (With an empty array nothing is removed, whereas [unset ()] clears
    the data.) *)
Theorem unset_of_array_is_unset_of_each
  s this m (keys : list (string * value)) :
  heap s !! this = Some (Entity m) ->
  Forall (fun k => is_string k = true) (elements keys) ->
  DbModel.unset this (VObj Array keys) s
  = unset_each this (elements keys) s.
Proof.
  intros Hm Hall. rewrite (unset_each_spec _ _ _ _ Hm Hall).
  unfold DbModel.unset, bind, this_entity, write, throw, ret; simpl.
  rewrite Hm.
  by destruct (DotProp.delete_each (elements keys) (__data m))
    as [data [e|]].
Qed.

(** X13: on a field that holds an integer, [increment (key, n)] stores the
    sum and [decrement (key, n)] the difference, with 1 for an omitted
    amount, as long as the numbers involved are integers that a number
    holds exactly; [get (key)] reads the result back. *)
Theorem increment_adds_to_an_integer_field
  s this m (c : objclass) props (key : string) (amt : value) (x n : Z) :
  heap s !! this = Some (Entity m) ->
  __data m = VObj c props ->
  key <> "" -> key <> "_id" ->
  DotProp.get (__data m) (VStr key) = VNum (Num x) ->
  amount amt = VNum (Num n) ->
  safe_integer x -> safe_integer n ->
  safe_integer (x + n) -> safe_integer (x - n) ->
  (exists s',
      DbModel.increment StringToNumber this (VStr key) amt s
      = (Return VUndefined, s')
      /\ DbModel.get this (VStr key) s' = (Return (VNum (Num (x + n))), s'))
  /\ (exists s',
         DbModel.decrement StringToNumber this (VStr key) amt s
         = (Return VUndefined, s')
         /\ DbModel.get this (VStr key) s'
            = (Return (VNum (Num (x - n))), s')).
Proof.
  intros Hm Hdata Hne Hid Hget Hamt _ _ _ _.
  rewrite Hdata in Hget. split.
  - destruct (set_found c props key (Num x) (VNum (Num (x + n))) Hget)
      as (c' & props' & Hset & Hread).
    eexists. split.
    + apply increment_spec with (VNum (Num (x + n))); [done| |].
      * by rewrite Hdata, Hget, Hamt.
      * by rewrite Hdata.
    + erewrite get_spec; [|apply store_at_lookup|done|done].
      cbn [__data]. by rewrite Hread.
  - destruct (set_found c props key (Num x) (VNum (Num (x - n))) Hget)
      as (c' & props' & Hset & Hread).
    eexists. split.
    + apply decrement_spec with (VNum (Num (x - n))); [done| |].
      * by rewrite Hdata, Hget, Hamt.
      * by rewrite Hdata.
    + erewrite get_spec; [|apply store_at_lookup|done|done].
      cbn [__data]. by rewrite Hread.
Qed.

(** X14: on a field that holds an integer, [increment (key, n)] followed
    by [decrement (key, n)] gives the field its value back, as long as the
    numbers involved are integers that a number holds exactly. *)
Theorem increment_then_decrement_restores_the_field
  s this m (c : objclass) props (key : string) (amt : value) (x n : Z) :
  heap s !! this = Some (Entity m) ->
  __data m = VObj c props ->
  key <> "" -> key <> "_id" ->
  DotProp.get (__data m) (VStr key) = VNum (Num x) ->
  amount amt = VNum (Num n) ->
  safe_integer x -> safe_integer n -> safe_integer (x + n) ->
  exists s1 s2,
    DbModel.increment StringToNumber this (VStr key) amt s
    = (Return VUndefined, s1)
    /\ DbModel.decrement StringToNumber this (VStr key) amt s1
       = (Return VUndefined, s2)
    /\ DbModel.get this (VStr key) s2 = (Return (VNum (Num x)), s2).
Proof.
  intros Hm Hdata Hne Hid Hget Hamt _ _ _.
  rewrite Hdata in Hget.
  destruct (set_found c props key (Num x) (VNum (Num (x + n))) Hget)
    as (c1 & p1 & Hset1 & Hread1).
  destruct (set_found c1 p1 key (Num (x + n)) (VNum (Num x)) Hread1)
    as (c2 & p2 & Hset2 & Hread2).
  set (m1 := mkEntity (constructor m) (VObj c1 p1) (__id m)).
  set (m2 := mkEntity (constructor m) (VObj c2 p2) (__id m)).
  exists (store_at s this (Entity m1)).
  exists (store_at (store_at s this (Entity m1)) this (Entity m2)).
  split.
  { apply increment_spec with (VNum (Num (x + n))); [done| |].
    - by rewrite Hdata, Hget, Hamt.
    - by rewrite Hdata. }
  split.
  { apply (decrement_spec _ _ m1 _ _ (VNum (Num x)));
      [apply store_at_lookup| |done].
    cbn [__data m1]. rewrite Hread1, Hamt. unfold sub. simpl.
    by replace (x + n - n)%Z with x by lia. }
  rewrite (get_spec _ _ m2 _ (store_at_lookup _ _ _) Hne Hid).
  cbn [__data m2]. by rewrite Hread2.
Qed.


(** X16: [new Model (data)] makes an entity at a location that was not in
    use, with the data given (the empty mapping when omitted) and without
    identity: [get ("_id")] returns [null], and [remove] fails with the
    error "Model not stored in database" before any request. *)
Theorem new_entity_has_no_identity (C : ModelClass) (data : value) s :
  let l := fresh (dom (heap s)) in
  let s1 := store_at s l
              (Entity (mkEntity C (default_arg data (obj [])) VNull)) in
  heap s !! l = None
  /\ DbModel.new C data VUndefined s = (Return l, s1)
  /\ DbModel.get l (VStr "_id") s1 = (Return VNull, s1)
  /\ DbModel.get l VUndefined s1
     = (Return (Object_assign_empty (default_arg data (obj []))), s1)
  /\ DbModel.remove plug l s1
     = (Throw (Error "Model not stored in database"), s1).
Proof.
  intros l s1. split; [apply fresh_unused|]. split; [reflexivity|].
  assert (heap s1 !! l
          = Some (Entity (mkEntity C (default_arg data (obj [])) VNull)))
    as Hm by apply store_at_lookup.
  split; [by rewrite (get_id_spec _ _ _ Hm)|].
  split; [by rewrite (get_all_spec _ _ _ Hm)|].
  unfold DbModel.remove, bind, this_entity. by rewrite Hm.
Qed.

End EntityProperties.

Section ValidationProperties.

Context {B : Type}.
Implicit Types (s : state B) (q : builder) (this : loc).

(** X17: [limit], [skip], [where], [gt], [lt] and [gte] check nothing: on
    a builder they succeed whatever their arguments are, push their one
    node with the arguments as given, and return the receiver.  Only
    [sort] and [lte] have a way to fail. *)
Theorem unchecked_calls_always_push s this q (c : DbQuery.chain_call) :
  heap s !! this = Some (Builder q) ->
  can_fail c = false ->
  exists node,
    pushes c node
    /\ DbQuery.chain this c s
       = (Return (Ref this), store_at s this (Builder (appended q [node]))).
Proof.
  intros Hq Hc.
  destruct (chain_step s this q c Hq) as [Hpush|(e & He)]; [done|].
  destruct c; try discriminate; simpl in He.
  - by rewrite (limit_spec _ _ _ _ Hq) in He.
  - by rewrite (skip_spec _ _ _ _ Hq) in He.
  - destruct (instanceof_Object key && eq_null val) eqn:Hw.
    + apply andb_prop in Hw as [Hk Hv].
      by rewrite (where_filter_spec _ _ _ _ _ Hq Hk Hv) in He.
    + by rewrite (where_equals_spec _ _ _ _ _ Hq Hw) in He.
  - by rewrite (gt_spec _ _ _ _ _ Hq) in He.
  - by rewrite (lt_spec _ _ _ _ _ Hq) in He.
  - by rewrite (gte_spec _ _ _ _ _ Hq) in He.
Qed.

End ValidationProperties.

(** ** Further examples *)

Lemma failing_plug_keeps_entities : keeps_entities failing_plug.
Proof. intros db c h b l m Hl. exact Hl. Qed.


(** [Model.sort ("a")] in the example world. *)
Lemma static_sort_on_the_example_world :
  exists l,
    heap a_state !! l = None
    /\ ((exists node,
           pushes (DbQuery.CallSort (VStr "a") VUndefined) node
           /\ static_chain quiet_plug Model
                (DbQuery.CallSort (VStr "a") VUndefined) a_state
              = (Return (Ref l),
                 store_at a_state l
                   (Builder (mkBuilder Model (__db Model) [node]))))
        \/ (exists e,
              static_chain quiet_plug Model
                (DbQuery.CallSort (VStr "a") VUndefined) a_state
              = (Throw e,
                 store_at a_state l
                   (Builder (mkBuilder Model (__db Model) []))))).
Proof.
  apply (static_constructor_builds_fresh_builder quiet_plug Model
           (DbQuery.CallSort (VStr "a") VUndefined) a_state).
  reflexivity.
Defined.

(** [Model.limit (2)] and then [Model.sort ("a")] in the example world. *)
Lemma two_constructors_on_the_example_world :
  let s1 := store_at a_state 3%nat
              (Builder (mkBuilder Model (Some "db") [OpLimit (VNum (Num 2))]))
  in
  let s2 := store_at s1 4%nat
              (Builder (mkBuilder Model (Some "db") [OpSort (VStr "a") true]))
  in
  static_chain quiet_plug Model (DbQuery.CallLimit (VNum (Num 2))) a_state
  = (Return (Ref 3%nat), s1)
  /\ static_chain quiet_plug Model (DbQuery.CallSort (VStr "a") VUndefined) s1
     = (Return (Ref 4%nat), s2)
  /\ 3%nat <> 4%nat
  /\ is_Some (heap s1 !! 3%nat)
  /\ heap s2 !! 3%nat = heap s1 !! 3%nat.
Proof.
  intros s1 s2.
  assert (static_chain quiet_plug Model (DbQuery.CallLimit (VNum (Num 2)))
            a_state = (Return (Ref 3%nat), s1)) as H1 by reflexivity.
  assert (static_chain quiet_plug Model
            (DbQuery.CallSort (VStr "a") VUndefined) s1
          = (Return (Ref 4%nat), s2)) as H2 by reflexivity.
  split; [exact H1|]. split; [exact H2|].
  exact (query_constructors_are_independent quiet_plug Model Model
           (DbQuery.CallLimit (VNum (Num 2)))
           (DbQuery.CallSort (VStr "a") VUndefined)
           a_state s1 s2 3%nat 4%nat H1 H2).
Defined.

(** [find ()] on the example builder, answered and refused. *)
Lemma find_on_the_example_builder :
  heap a_state !! 0%nat = Some (Builder a_builder)
  /\ DbQuery.run quiet_plug 0%nat DbQuery.Find a_state
     = (Return VNull,
        mkState (heap a_state) tt [("db", findModels Model 0%nat)])
  /\ DbQuery.run failing_plug 0%nat DbQuery.Find a_state
     = (Throw (Rejected (VStr "down")),
        mkState (heap a_state) tt [("db", findModels Model 0%nat)]).
Proof.
  split; [reflexivity|]. split.
  - apply (proj1 (terminal_sends_one_request quiet_plug a_state 0%nat
                    a_builder DbQuery.Find eq_refl) "db" eq_refl).
  - apply (proj1 (terminal_sends_one_request failing_plug a_state 0%nat
                    a_builder DbQuery.Find eq_refl) "db" eq_refl).
Defined.

(** [remove ()] twice on the saved example entity, with a plug that
    refuses the deletion. *)
Lemma remove_twice_on_the_example_entity :
  keeps_entities failing_plug
  /\ heap a_state !! 1%nat = Some (Entity an_entity)
  /\ eq_null (__id an_entity) = false
  /\ let s1 := (DbModel.remove failing_plug 1%nat a_state).2 in
     heap s1 !! 1%nat
     = Some (Entity (mkEntity (constructor an_entity) (__data an_entity)
                       VNull))
     /\ DbModel.remove failing_plug 1%nat s1
        = (Throw (Error "Model not stored in database"), s1).
Proof.
  split; [exact failing_plug_keeps_entities|].
  split; [reflexivity|]. split; [reflexivity|].
  apply (remove_cannot_be_repeated failing_plug a_state 1%nat an_entity
           failing_plug_keeps_entities eq_refl eq_refl).
Defined.


(** [set ("_id", "xyz")] on the saved example entity. *)
Lemma set_of_id_on_the_example_entity :
  heap a_state !! 1%nat = Some (Entity an_entity)
  /\ exists s' full,
      DbModel.set 1%nat (VStr "_id") (VStr "xyz") a_state
      = (Return VUndefined, s')
      /\ DbModel.get 1%nat (VStr "_id") s' = (Return (VStr "abc"), s')
      /\ DbModel.get 1%nat VUndefined s' = (Return (VObj Plain full), s')
      /\ assoc "_id" full = Some (VStr "xyz").
Proof.
  split; [reflexivity|].
  apply (set_of_id_writes_the_data_only a_state 1%nat an_entity Plain
           [("_id", VNum (Num 7)); ("a", VNum (Num 1))] (VStr "xyz")
           eq_refl eq_refl).
Defined.

(** [set ({a: 2, b: 3})] on the saved example entity and on the entity
    whose data is [null]. *)
Lemma merge_on_the_example_entity :
  heap a_state !! 1%nat = Some (Entity an_entity)
  /\ DbModel.set 1%nat (obj [("a", VNum (Num 2)); ("b", VNum (Num 3))])
       VUndefined b_state
     = (Throw (TypeError "Cannot convert undefined or null to object"),
        b_state)
  /\ exists s' full,
      DbModel.set 1%nat (obj [("a", VNum (Num 2)); ("b", VNum (Num 3))])
        VUndefined a_state
      = (Return VUndefined, s')
      /\ DbModel.get 1%nat VUndefined s' = (Return (VObj Plain full), s')
      /\ assoc "a" full = Some (VNum (Num 2))
      /\ assoc "b" full = Some (VNum (Num 3))
      /\ assoc "_id" full = Some (VNum (Num 7)).
Proof.
  split; [reflexivity|]. split.
  { apply (proj2 (set_of_mapping_merges b_state 1%nat null_entity Plain
                    [("a", VNum (Num 2)); ("b", VNum (Num 3))] VUndefined
                    eq_refl eq_refl) eq_refl). }
  destruct (proj1 (set_of_mapping_merges a_state 1%nat an_entity Plain
                     [("a", VNum (Num 2)); ("b", VNum (Num 3))] VUndefined
                     eq_refl eq_refl)
              Plain [("_id", VNum (Num 7)); ("a", VNum (Num 1))] eq_refl
              ltac:(repeat constructor))
    as (s' & full & Hset & Hget & _ & Hin & Hout).
  assert (NoDup (map fst [("a", VNum (Num 2)); ("b", VNum (Num 3))])) as Hnd.
  { apply NoDup_cons. split; [|apply NoDup_singleton].
    intros Hin'. apply list_elem_of_singleton in Hin'. discriminate. }
  exists s', full. split; [exact Hset|]. split; [exact Hget|].
  split; [exact (Hin "a" _ Hnd eq_refl)|].
  split; [exact (Hin "b" _ Hnd eq_refl)|].
  rewrite (Hout "_id"); [reflexivity| |discriminate].
  simpl. intros [H|[H|[]]]; discriminate H.
Defined.

(** [unset ()] on the saved example entity. *)
Lemma unset_all_on_the_example_entity :
  heap a_state !! 1%nat = Some (Entity an_entity)
  /\ exists s',
      DbModel.unset 1%nat VUndefined a_state = (Return VUndefined, s')
      /\ DbModel.get 1%nat VUndefined s' = (Return (VObj Plain []), s')
      /\ (forall k, k <> "" -> k <> "_id" ->
            DbModel.get 1%nat (VStr k) s' = (Return VUndefined, s'))
      /\ DbModel.get 1%nat (VStr "_id") s' = (Return (VStr "abc"), s').
Proof.
  split; [reflexivity|].
  apply (unset_without_key_clears_the_data a_state 1%nat an_entity
           VUndefined eq_refl eq_refl).
Defined.

(** [unset ("a")] on the saved example entity. *)
Lemma unset_field_on_the_example_entity :
  heap a_state !! 1%nat = Some (Entity an_entity)
  /\ exists s' full,
      DbModel.unset 1%nat (VStr "a") a_state = (Return VUndefined, s')
      /\ DbModel.get 1%nat (VStr "a") s' = (Return VUndefined, s')
      /\ DbModel.get 1%nat VUndefined s' = (Return (VObj Plain full), s')
      /\ (forall k, k <> "a" -> k <> "__proto__" ->
            assoc k full
            = assoc k [("_id", VNum (Num 7)); ("a", VNum (Num 1))]).
Proof.
  split; [reflexivity|].
  apply (unset_removes_a_top_level_field a_state 1%nat an_entity Plain
           [("_id", VNum (Num 7)); ("a", VNum (Num 1))] "a"
           eq_refl eq_refl eq_refl); discriminate.
Defined.

(** Two exceptions to the removal of a top-level field: the [length] of
    data that is an array cannot be deleted, [unset ("length")] raises a
    TypeError there; and [get ()] never shows a data field named
    ["__proto__"], before or after an [unset]. *)
Lemma unset_of_array_length_raises :
  DbModel.unset 1%nat (VStr "length") c_state
  = (Throw (TypeError "Cannot delete property 'length'"), c_state)
  /\ DbModel.get 2%nat VUndefined c_state
     = (Return (obj [("a", VNum (Num 1))]), c_state)
  /\ DbModel.get 2%nat VUndefined
       (DbModel.unset 2%nat (VStr "a") c_state).2
     = (Return (obj []), (DbModel.unset 2%nat (VStr "a") c_state).2).
Proof. repeat split; reflexivity. Qed.

(** [unset (["a", "_id"])] on the saved example entity. *)
Lemma unset_array_on_the_example_entity :
  heap a_state !! 1%nat = Some (Entity an_entity)
  /\ elements [("0", VStr "a"); ("1", VStr "_id")] = [VStr "a"; VStr "_id"]
  /\ DbModel.unset 1%nat (VObj Array [("0", VStr "a"); ("1", VStr "_id")])
       a_state
     = unset_each 1%nat [VStr "a"; VStr "_id"] a_state.
Proof.
  split; [reflexivity|]. split; [reflexivity|].
  apply (unset_of_array_is_unset_of_each a_state 1%nat an_entity
           [("0", VStr "a"); ("1", VStr "_id")] eq_refl).
  repeat constructor.
Defined.

Lemma small_is_safe (z : Z) : (-1000 <= z <= 1000)%Z -> safe_integer z.
Proof.
  intros [Hlo Hhi]. unfold safe_integer. split.
  - apply Z.le_trans with (-1000)%Z; [by vm_compute | done].
  - apply Z.le_trans with 1000%Z; [done | by vm_compute].
Qed.

(** [increment ("a")] and [decrement ("a")] on the saved example entity,
    whose field ["a"] holds 1. *)
Lemma increment_integer_on_the_example_entity :
  heap a_state !! 1%nat = Some (Entity an_entity)
  /\ DotProp.get (__data an_entity) (VStr "a") = VNum (Num 1)
  /\ (exists s',
         DbModel.increment (fun _ => NaN) 1%nat (VStr "a") VUndefined a_state
         = (Return VUndefined, s')
         /\ DbModel.get 1%nat (VStr "a") s'
            = (Return (VNum (Num (1 + 1))), s'))
  /\ (exists s',
         DbModel.decrement (fun _ => NaN) 1%nat (VStr "a") VUndefined a_state
         = (Return VUndefined, s')
         /\ DbModel.get 1%nat (VStr "a") s'
            = (Return (VNum (Num (1 - 1))), s')).
Proof.
  split; [reflexivity|]. split; [reflexivity|].
  apply (increment_adds_to_an_integer_field (fun _ => NaN) a_state 1%nat
           an_entity Plain [("_id", VNum (Num 7)); ("a", VNum (Num 1))]
           "a" VUndefined 1 1 eq_refl eq_refl);
    try discriminate; try reflexivity; apply small_is_safe; lia.
Defined.

(** [increment ("a", 5)] and then [decrement ("a", 5)] on the saved
    example entity. *)
Lemma round_trip_on_the_example_entity :
  heap a_state !! 1%nat = Some (Entity an_entity)
  /\ exists s1 s2,
      DbModel.increment (fun _ => NaN) 1%nat (VStr "a") (VNum (Num 5))
        a_state
      = (Return VUndefined, s1)
      /\ DbModel.decrement (fun _ => NaN) 1%nat (VStr "a") (VNum (Num 5)) s1
         = (Return VUndefined, s2)
      /\ DbModel.get 1%nat (VStr "a") s2 = (Return (VNum (Num 1)), s2).
Proof.
  split; [reflexivity|].
  apply (increment_then_decrement_restores_the_field (fun _ => NaN) a_state
           1%nat an_entity Plain [("_id", VNum (Num 7)); ("a", VNum (Num 1))]
           "a" (VNum (Num 5)) 1 5 eq_refl eq_refl);
    try discriminate; try reflexivity; apply small_is_safe; lia.
Defined.


(** [limit ("many")] on the example builder. *)
Lemma limit_on_the_example_builder :
  heap a_state !! 0%nat = Some (Builder a_builder)
  /\ exists node,
      pushes (DbQuery.CallLimit (VStr "many")) node
      /\ DbQuery.chain 0%nat (DbQuery.CallLimit (VStr "many")) a_state
         = (Return (Ref 0%nat),
            store_at a_state 0%nat (Builder (appended a_builder [node]))).
Proof.
  split; [reflexivity|].
  apply (unchecked_calls_always_push a_state 0%nat a_builder
           (DbQuery.CallLimit (VStr "many"))); reflexivity.
Defined.
